(** * Climate_System: HWs/HW2/visualize.py

    A shallow embedding of the grid indexing, the region slicing and the
    mesh extraction of class [DataSet], and of the construction and the
    frame/animation entry points of class [Visualize].

    Conventions of the embedding:
    - a latitude, longitude or half-extent is an exact rational ([Q]); the
      integer literals of the source ([90], [180], [4]) are the same
      rationals.  This is the arithmetic of Python [int]s.  For floats the
      index arithmetic is given a second time with a rounding after each
      operation ([to_lat_index_rnd] and the like); a float that overflows
      or is no number, at which [int()] raises, is outside the model, so
      a call with a region is said to return for [int] arguments only;
    - [int(x)] truncates toward zero;
    - indices and time steps are unbounded integers ([Z]), as in Python;
    - a raised exception is a value of [exn]; a pure method returns
      [exn + A], a method with effects is a state transformer on [world]
      (directories on disk, what the system refuses to make, decodable
      files, the log of effects). *)

From Stdlib Require Import QArith Qround ZArith Lia Lqa Ascii.
From stdpp Require Import gmap strings list fin_maps pretty.

Local Open Scope Z_scope.

(** ** Python numerics *)

Module Py.

(** [int(q)]: truncation toward zero. *)
Definition int (q : Q) : Z :=
  if Qle_bool 0 q then Qfloor q else Qceiling q.

(** [max(a, b)] returns its first argument unless a later one is strictly
    greater; [min(a, b)] unless a later one is strictly smaller. *)
Definition max (a b : Q) : Q := if Qle_bool b a then a else b.
Definition min (a b : Q) : Q := if Qle_bool a b then a else b.

(** [slice(start, stop)] with no step. *)
Record slice := Slice { start : Z; stop : Z }.

(** [slice.indices(len)] for step 1: a negative bound counts from the end,
    then both bounds are clipped to [0, len]. *)
Definition clip (i : Z) (len : nat) : nat :=
  let n := Z.of_nat len in
  let j := if i <? 0 then i + n else i in
  Z.to_nat (Z.min (Z.max j 0) n).

(** [seq[s]] for a sequence and a slice. *)
Definition getslice {A} (l : list A) (s : slice) : list A :=
  let lo := clip (start s) (length l) in
  let hi := clip (stop s) (length l) in
  take (hi - lo)%nat (drop lo l).

(** The length [seq[s]] has on a sequence of length [len]. *)
Definition slice_len (s : slice) (len : nat) : nat :=
  (clip (stop s) len - clip (start s) len)%nat.

(** [seq[i]] for an integer: a negative index counts from the end; out of
    range there is no element. *)
Definition getitem {A} (l : list A) (i : Z) : option A :=
  let n := Z.of_nat (length l) in
  let j := if i <? 0 then i + n else i in
  if (0 <=? j) && (j <? n) then l !! Z.to_nat j else None.

End Py.

(** ** GridIndexer: the index arithmetic of [DataSet] *)

(** Grid cells per degree; the source writes the literal [4]. *)
Definition resolution_factor : Z := 4.

(** [DataSet.to_lat_index]: [int((90 - lat) * 4)]. *)
Definition to_lat_index (lat : Q) : Z := Py.int ((90 - lat) * 4)%Q.

(** [DataSet.to_lon_index]: [int((lon + 180) * 4)]. *)
Definition to_lon_index (lon : Q) : Z := Py.int ((lon + 180) * 4)%Q.

(** [DataSet.get_mask]. *)
Definition get_mask (lat lon dlat dlon : Q) : Py.slice * Py.slice :=
  let lat_min := Py.max (lat - dlat)%Q (-90)%Q in
  let lat_max := Py.min (lat + dlat)%Q 90%Q in
  let lon_min := Py.max (lon - dlon)%Q (-180)%Q in
  let lon_max := Py.min (lon + dlon)%Q 180%Q in
  let latmask := Py.Slice (to_lat_index lat_max) (to_lat_index lat_min) in
  let lonmask := Py.Slice (to_lon_index lon_min) (to_lon_index lon_max) in
  (latmask, lonmask).

(** *** The same arithmetic on floats

    When a coordinate is a Python float, each of [90 - lat], [lon + 180],
    the product by [4], [lat - dlat] and the like is the exact result
    rounded to binary64.  [rnd] stands for that rounding; with the
    identity for [rnd] these are the definitions above. *)

Section RoundedDefs.

Variable rnd : Q → Q.

Definition to_lat_index_rnd (lat : Q) : Z := Py.int (rnd (rnd (90 - lat) * 4))%Q.

Definition to_lon_index_rnd (lon : Q) : Z := Py.int (rnd (rnd (lon + 180) * 4))%Q.

Definition get_mask_rnd (lat lon dlat dlon : Q) : Py.slice * Py.slice :=
  let lat_min := Py.max (rnd (lat - dlat))%Q (-90)%Q in
  let lat_max := Py.min (rnd (lat + dlat))%Q 90%Q in
  let lon_min := Py.max (rnd (lon - dlon))%Q (-180)%Q in
  let lon_max := Py.min (rnd (lon + dlon))%Q 180%Q in
  let latmask := Py.Slice (to_lat_index_rnd lat_max) (to_lat_index_rnd lat_min) in
  let lonmask := Py.Slice (to_lon_index_rnd lon_min) (to_lon_index_rnd lon_max) in
  (latmask, lonmask).

End RoundedDefs.

(** ** Exceptions *)

Inductive exn :=
| RuntimeError (msg : string)
| AttributeError (attr : string)
| TypeError (msg : string)
| KeyError (key : string)
| IndexError
| FileExistsError (path : string)
| FileNotFoundError (path : string)
| PermissionError (path : string)
| NotADirectoryError (path : string)
| OSError (errno : Z) (path : string).

(** A pure computation that may raise. *)
Definition result (A : Type) : Type := exn + A.

#[global] Instance result_ret : MRet result := fun _ x => inr x.
#[global] Instance result_bind : MBind result := fun _ _ f m =>
  match m with inl e => inl e | inr x => f x end.
#[global] Instance result_throw : MThrow exn result := fun _ e => inl e.

(** [o] or, when there is nothing, raise [e]. *)
Definition or_raise {A} (o : option A) (e : exn) : result A :=
  match o with Some x => inr x | None => inl e end.

(** The script raises [RuntimeError] throughout; the specification names
    each error after its message. *)
Definition OutOfRangeError : exn :=
  RuntimeError "[DataSet-ERROR] time step out of bound".
Definition AmbiguousRegionError : exn :=
  RuntimeError "[DataSet-ERROR] region information ambiguous".
Definition UnsupportedModeError : exn :=
  RuntimeError "[Visualize-ERROR] Mode not supported !".
Definition DatasetCountMismatchError (mode : string) : exn :=
  RuntimeError ("[Visualizer-ERROR] Incorrect number of datasets for "
                +:+ mode +:+ " mode").

(** ** Decoded grids *)

(** A 2-D array: [shape = (length rows, ncols)].  The column count is
    kept apart from the rows, so that an array without rows still has a
    second dimension, as in numpy. *)
Record array2 := Array2 { ncols : nat; rows : list (list Q) }.

Definition shape (a : array2) : nat * nat := (length (rows a), ncols a).

(** Every row has [ncols] entries. *)
Definition array2_wf (a : array2) : Prop :=
  Forall (fun r => length r = ncols a) (rows a).

(** [a[rmask, cmask]]. *)
Definition array2_getslice (a : array2) (rmask cmask : Py.slice) : array2 :=
  {| ncols := Py.slice_len cmask (ncols a);
     rows := (fun r => Py.getslice r cmask) <$> Py.getslice (rows a) rmask |}.

(** What [xr.open_dataset] decodes: the two 1-D coordinate arrays and, per
    data variable, a field indexed by [time][lat][lon].  The model is of a
    [data_var] that names a data variable, or nothing in the dataset: the
    name of a coordinate, for which xarray answers with the coordinate
    array, is outside it. *)
Record Dataset := {
  latitude : list Q;
  longitude : list Q;
  data_vars : gmap string (list array2)
}.

(** [array[name]] for a data variable; of xarray's [KeyError] the name
    alone is kept. *)
Definition Dataset_getitem (a : Dataset) (name : string) : result (list array2) :=
  or_raise (data_vars a !! name) (KeyError name).

(** [field[time_step]]. *)
Definition field_getitem (f : list array2) (time_step : Z) : result array2 :=
  or_raise (Py.getitem f time_step) IndexError.

(** ** class DataSet *)

Record DataSet := {
  array : Dataset;
  time_steps : Z;
  data_var : string
}.

Definition mesh : Type := list Q * list Q * array2.

(** [DataSet.getMesh].  An argument left at its default is [None]. *)
Definition getMesh (self : DataSet) (time_step : Z)
    (lat lon dlat dlon : option Q) : result mesh :=
  if time_step >=? time_steps self then
    mthrow (RuntimeError "[DataSet-ERROR] time step out of bound")
  else
    match lat, lon, dlat, dlon with
    | Some lat, Some lon, Some dlat, Some dlon =>
        let '(latmask, lonmask) := get_mask lat lon dlat dlon in
        let latmesh := Py.getslice (latitude (array self)) latmask in
        let lonmesh := Py.getslice (longitude (array self)) lonmask in
        field ← Dataset_getitem (array self) (data_var self);
        layer ← field_getitem field time_step;
        mret (latmesh, lonmesh, array2_getslice layer latmask lonmask)
    | None, None, None, None =>
        let latmesh := latitude (array self) in
        let lonmesh := longitude (array self) in
        field ← Dataset_getitem (array self) (data_var self);
        layer ← field_getitem field time_step;
        mret (latmesh, lonmesh, layer)
    | _, _, _, _ =>
        mthrow (RuntimeError "[DataSet-ERROR] region information ambiguous")
    end.

(** ** Effects *)

(** What the script does to the outside, in order. *)
Inductive event :=
| Print (msg : string)
| Mkdir (path : string)
| OpenDataset (path : string)
| SaveFig (path : string)
| ImRead (path : string)
| MimSave (path : string) (frames : nat).

(** Why the operating system refuses to make a directory, when it is not
    that the directory is there already: a parent is missing, a permission
    is, a parent is no directory, or another error number. *)
Inductive oserror :=
| ENOENT
| EACCES
| ENOTDIR
| EOTHER (errno : Z).

(** The exception Python raises for it. *)
Definition os_exn (e : oserror) (path : string) : exn :=
  match e with
  | ENOENT => FileNotFoundError path
  | EACCES => PermissionError path
  | ENOTDIR => NotADirectoryError path
  | EOTHER errno => OSError errno path
  end.

(** The directories that exist; what the operating system answers to a
    [mkdir] of each path when it refuses ([mkdir_error], [None] where it
    does not): it is the system that resolves the path and knows of
    parents and permissions, so a disk on which the parent of a path is
    missing is a world with [ENOENT] at that path; the grib files on the
    disk, each with what it decodes to; and the log. *)
Record world := World {
  dirs : gset string;
  mkdir_error : string → option oserror;
  files : gmap string Dataset;
  log : list event
}.

Definition M (A : Type) : Type := world → result A * world.

#[global] Instance M_ret : MRet M := fun _ x w => (inr x, w).
#[global] Instance M_bind : MBind M := fun _ _ f m w =>
  match m w with
  | (inl e, w') => (inl e, w')
  | (inr x, w') => f x w'
  end.
#[global] Instance M_throw : MThrow exn M := fun _ e w => (inl e, w).

Definition lift {A} (r : result A) : M A := fun w => (r, w).

Definition emit (e : event) : M unit := fun w =>
  (inr tt, {| dirs := dirs w; mkdir_error := mkdir_error w; files := files w;
              log := log w ++ [e] |}).

Definition print (msg : string) : M unit := emit (Print msg).

(** [try: m  except FileExistsError: h]. *)
Definition try_except_FileExistsError {A} (m h : M A) : M A := fun w =>
  match m w with
  | (inl (FileExistsError _), w') => h w'
  | r => r
  end.

(** [for x in l: s = body x s], left at the first exception. *)
Fixpoint for_each {A S} (l : list A) (body : A → S → M S) (s : S) : M S :=
  match l with
  | [] => mret s
  | x :: l' => s' ← body x s; for_each l' body s'
  end.

(** [range(n)]. *)
Definition range (n : Z) : list Z := Z.of_nat <$> seq 0 (Z.to_nat n).

Module os.

(** [os.mkdir(dir)]: the system's refusal, [FileExistsError] for a
    directory that is there, or the directory made. *)
Definition mkdir (dir : string) : M unit := fun w =>
  match mkdir_error w dir with
  | Some e => (inl (os_exn e dir), w)
  | None =>
      if decide (dir ∈ dirs w) then (inl (FileExistsError dir), w)
      else (inr tt, {| dirs := {[dir]} ∪ dirs w; mkdir_error := mkdir_error w;
                       files := files w; log := log w ++ [Mkdir dir] |})
  end.

Fixpoint endswith_sep (s : string) : bool :=
  match s with
  | EmptyString => false
  | String c EmptyString => Ascii.eqb c "/"
  | String _ s' => endswith_sep s'
  end.

(** [os.path.join(a, b)] on a POSIX system. *)
Definition path_join (a b : string) : string :=
  if String.prefix "/" b then b
  else if (String.eqb a "" || endswith_sep a)%bool then a +:+ b
  else a +:+ "/" +:+ b.

End os.

(** [xr.open_dataset(path, engine="cfgrib")]: the dataset of the grib file
    at [path], [FileNotFoundError] where there is none. *)
Definition open_dataset (path : string) : M Dataset := fun w =>
  match files w !! path with
  | Some ds => (inr ds, {| dirs := dirs w; mkdir_error := mkdir_error w;
                           files := files w;
                           log := log w ++ [OpenDataset path] |})
  | None => (inl (FileNotFoundError path), w)
  end.

(** ** class Visualize *)

(** The values an attribute or an argument holds.  The dictionaries are
    finite maps: the script reads their size and their entries by key, and
    its one attempt at a position, [keys()[i]], raises. *)
Inductive value :=
| VNone
| VInt (n : Z)
| VStr (s : string)
| VOpaque (name : string)
| VSteps (d : gmap string Z)
| VDatasets (d : gmap string DataSet).

(** An instance is its attribute dictionary. *)
Abbreviation object := (gmap string value).

Definition getattr (self : object) (name : string) : M value :=
  match self !! name with
  | Some v => mret v
  | None => mthrow (AttributeError name)
  end.

(** [v == s] and [v != s] for a string literal [s]. *)
Definition eq_str (v : value) (s : string) : bool :=
  match v with VStr s' => String.eqb s' s | _ => false end.
Definition ne_str (v : value) (s : string) : bool := negb (eq_str v s).

(** [len(v.keys())]. *)
Definition len_keys (v : value) : M Z :=
  match v with
  | VDatasets d => mret (Z.of_nat (size d))
  | VSteps d => mret (Z.of_nat (size d))
  | _ => mthrow (AttributeError "keys")
  end.

(** [(v.keys())[i]]: a [dict_keys] view has no subscript. *)
Definition keys_getitem (v : value) (i : Z) : M string :=
  match v with
  | VDatasets _ | VSteps _ =>
      mthrow (TypeError "'dict_keys' object is not subscriptable")
  | _ => mthrow (AttributeError "keys")
  end.

(** [v[name]] where a [DataSet] is expected. *)
Definition datasets_getitem (v : value) (name : string) : M DataSet :=
  match v with
  | VDatasets d => lift (or_raise (d !! name) (KeyError name))
  | VSteps d =>
      match d !! name with
      | Some _ => mthrow (AttributeError "time_steps")
      | None => mthrow (KeyError name)
      end
  | VStr _ => mthrow (TypeError "string indices must be integers")
  | _ => mthrow (TypeError "object is not subscriptable")
  end.

(** [v[name]] where a step count is expected. *)
Definition steps_getitem (v : value) (name : string) : M Z :=
  match v with
  | VSteps d => lift (or_raise (d !! name) (KeyError name))
  | VDatasets d =>
      match d !! name with
      | Some _ => mthrow (TypeError "'DataSet' object cannot be interpreted as an integer")
      | None => mthrow (KeyError name)
      end
  | VStr _ => mthrow (TypeError "string indices must be integers")
  | _ => mthrow (TypeError "object is not subscriptable")
  end.

(** [ds.frame_dir] and [ds.anim_dir]: [DataSet.__init__] assigns [array],
    [time_steps] and [data_var] and nothing else. *)
Definition DataSet_getattr_dir (ds : DataSet) (name : string) : M string :=
  mthrow (AttributeError name).

Module Visualize.

(** [Visualize.create_dir]. *)
Definition create_dir (dir : string) : M unit :=
  try_except_FileExistsError
    (_ ← os.mkdir dir;
     print ("[Visualize-LOG] Directory '" +:+ dir +:+ "' created"))
    (print ("[Visualize-LOG] Directory '" +:+ dir +:+ "' already exists")).

(** The body of the loop over [data_paths.items()]. *)
Definition prepare (time_steps : option (gmap string Z))
    (item : string * string) (self : object) : M object :=
  let '(data_name, data_path) := item in
  _ ← print ("[Visualize-LOG] Preparing dataset for " +:+ data_name);
  ds ← open_dataset data_path;
  time_step ← match time_steps with
              | None => mret 1
              | Some d => lift (or_raise (d !! data_name) (KeyError data_name))
              end;
  datasets ← getattr self "datasets";
  match datasets with
  | VDatasets d =>
      mret (<["datasets" := VDatasets (<[data_name := Build_DataSet ds time_step data_name]> d)]> self)
  | _ => mthrow (TypeError "object does not support item assignment")
  end.

(** [Visualize.__init__]; [data_paths] is the dictionary's items in
    order.  Returns the instance. *)
Definition __init__ (task_name : string) (data_paths : list (string * string))
    (outputs_dir : string) (mode : value) (projection : value)
    (time_steps : option (gmap string Z)) : M object :=
  let self : object := ∅ in
  let self := <["datasets" := VDatasets ∅]> self in
  let size := Z.of_nat (length data_paths) in
  let self := <["size" := VInt size]> self in
  let self := <["task_name" := VStr task_name]> self in
  let self := <["time_steps" := from_option VSteps VNone time_steps]> self in
  _ ← print ("[Visualize-LOG] Creating a new visualize class for taks "
             +:+ task_name +:+ " with " +:+ pretty size +:+ " climate variables");
  let self := <["projection" := projection]> self in
  let out_dir := os.path_join outputs_dir task_name in
  let self := <["out_dir" := VStr out_dir]> self in
  _ ← create_dir out_dir;
  if ne_str mode "scalar" && ne_str mode "vector" then
    mthrow (RuntimeError "[Visualize-ERROR] Mode not supported !")
  else
    let self := <["frame_dir" := VStr (os.path_join out_dir "frame")]> self in
    let self := <["anim_dir" := VStr (os.path_join out_dir "animation")]> self in
    for_each data_paths (prepare time_steps) self.

(** [Visualize.populate_frame].  The call of [plot_scalar_and_save]
    evaluates its argument [ds.frame_dir] first, and passes a keyword the
    method does not take. *)
Definition populate_frame (self : object) (lat lon dlat dlon : option Q)
    (title : value) : M unit :=
  mode ← getattr self "mode";
  if eq_str mode "scalar" then
    datasets ← getattr self "datasets";
    n ← len_keys datasets;
    if negb (n =? 1) then
      mthrow (RuntimeError "[Visualizer-ERROR] Incorrect number of datasets for scalar mode")
    else
      data_name ← keys_getitem datasets 0;
      _ ← print ("[Visualize LOG] Populating for the scalar climate variable "
                 +:+ data_name);
      ds ← datasets_getitem datasets data_name;
      for_each (range (time_steps ds)) (fun time (_ : unit) =>
        _ ← print ("[Visualize LOG] Plotting time " +:+ pretty time);
        m ← lift (getMesh ds time lat lon dlat dlon);
        path_to_subdir ← DataSet_getattr_dir ds "frame_dir";
        mthrow (TypeError "plot_scalar_and_save() got an unexpected keyword argument 'path_to_subdir'")) tt
  else
    datasets ← getattr self "datasets";
    n ← len_keys datasets;
    if negb (n =? 3) then
      mthrow (RuntimeError "[Visualizer-ERROR] Incorrect number of datasets for vector mode")
    else
      u_name ← keys_getitem datasets 0;
      v_name ← keys_getitem datasets 1;
      w_name ← keys_getitem datasets 2;
      _ ← print ("[Visualize LOG] Populating for the vector climate variable ('"
                 +:+ u_name +:+ "', '" +:+ v_name +:+ "', '" +:+ w_name +:+ "')");
      u ← datasets_getitem datasets u_name;
      v ← datasets_getitem datasets v_name;
      w ← datasets_getitem datasets w_name;
      mret tt.

(** [Visualize.animate_from_frames]; the loop state is [images]. *)
Definition animate_from_frames (self : object) : M unit :=
  mode ← getattr self "mode";
  if eq_str mode "scalar" then
    datasets ← getattr self "datasets";
    n ← len_keys datasets;
    if negb (n =? 1) then
      mthrow (RuntimeError "[Visualizer-ERROR] Incorrect number of datasets for scalar mode")
    else
      data_name ← keys_getitem datasets 0;
      _ ← print ("[Visualize-LOG] Animating the scalar climate variable "
                 +:+ data_name);
      steps ← getattr self "time_steps";
      count ← steps_getitem steps data_name;
      images ← for_each (range count) (fun i (images : list string) =>
        datasets ← getattr self "datasets";
        ds ← datasets_getitem datasets data_name;
        frame_dir ← DataSet_getattr_dir ds "frame_dir";
        let ith_path := os.path_join frame_dir (pretty i +:+ ".png") in
        _ ← emit (ImRead ith_path);
        mret (images ++ [ith_path])) [];
      datasets ← getattr self "datasets";
      ds ← datasets_getitem datasets data_name;
      anim_dir ← DataSet_getattr_dir ds "anim_dir";
      task_name ← getattr self "task_name";
      match task_name with
      | VStr task_name =>
          let output_gif_path := os.path_join anim_dir (task_name +:+ ".gif") in
          _ ← emit (MimSave output_gif_path (length images));
          print ("[Visualize-LOG] Animation saved as " +:+ output_gif_path)
      | _ => mthrow (TypeError "unsupported operand type(s) for +")
      end
  else
    datasets ← getattr self "datasets";
    n ← len_keys datasets;
    if negb (n =? 3) then
      mthrow (RuntimeError "[Visualizer-ERROR] Incorrect number of datasets for vector mode")
    else
      u_name ← keys_getitem datasets 0;
      v_name ← keys_getitem datasets 1;
      w_name ← keys_getitem datasets 2;
      print ("[Visualize-LOG] Animating the vector climate variable ("
             +:+ u_name +:+ ", " +:+ v_name +:+ ", " +:+ w_name +:+ ")").

(** Rendering work: a figure saved, a frame read, an animation written. *)
Definition is_rendering (e : event) : bool :=
  match e with
  | SaveFig _ | ImRead _ | MimSave _ _ => true
  | _ => false
  end.

End Visualize.

(** ** Vocabulary of the specification *)

(** Row [k] of the grid holds the latitudes of the quarter-degree cell
    [(90 - (k+1)/4, 90 - k/4]]. *)
Definition in_cell (k : Z) (lat : Q) : bool :=
  negb (Qle_bool lat (90 - (inject_Z k + 1) / 4)) && Qle_bool lat (90 - inject_Z k / 4).

(** How many of the four region arguments are supplied. *)
Definition given (arg : option Q) : nat :=
  match arg with Some _ => 1 | None => 0 end.
Definition supplied (lat lon dlat dlon : option Q) : nat :=
  given lat + given lon + given dlat + given dlon.

(** The field of data variable [name] agrees with the coordinate arrays:
    at every time step it has a row per latitude and, in every row, an
    entry per longitude. *)
Definition Dataset_consistent (a : Dataset) (name : string) : Prop :=
  ∀ field layer, data_vars a !! name = Some field → layer ∈ field →
    array2_wf layer ∧ shape layer = (length (latitude a), length (longitude a)).

(** ** A small catalog *)

(** A grid of three latitudes by two longitudes with two time steps of
    the variable ["u100"]. *)
Definition grid0 : Dataset := {|
  latitude := [90; 359 # 4; 179 # 2]%Q;
  longitude := [-180; -719 # 4]%Q;
  data_vars := {[ "u100" :=
    [ Array2 2 [[1; 2]; [3; 4]; [5; 6]]%Q;
      Array2 2 [[7; 8]; [9; 10]; [11; 12]]%Q ] ]}
|}.

Definition u100 : DataSet := Build_DataSet grid0 2 "u100".

(** A disk with the directories ["/out"] and ["/data"], two grib files and
    no output directory of a task yet, on which no [mkdir] is refused. *)
Definition world0 : world := {|
  dirs := {[ "/out"; "/data" ]};
  mkdir_error := fun _ => None;
  files := {[ "/data/u.grib" := grid0; "/data/v.grib" := grid0 ]};
  log := []
|}.

(** A disk with the directories ["out"] and ["data"] and no directory
    ["nodir"]: a [mkdir] below ["nodir"] finds no parent. *)
Definition world_no_parent : world := {|
  dirs := {[ "out"; "data" ]};
  mkdir_error := fun path => if String.prefix "nodir/" path then Some ENOENT else None;
  files := {[ "data/u.grib" := grid0 ]};
  log := []
|}.

Definition is_RuntimeError (e : exn) : bool :=
  match e with RuntimeError _ => true | _ => false end.

(** ** The grid the index arithmetic addresses *)

(** Entry [k] of the latitude array is [90 - k/4], entry [k] of the
    longitude array is [k/4 - 180]: the quarter-degree grid, from the north
    pole and the antimeridian, on which [to_lat_index] and [to_lon_index]
    are positions.  An array may stop short of the other pole. *)
Definition lat_grid (a : list Q) : Prop :=
  ∀ (k : nat) (v : Q), a !! k = Some v → (v == 90 - inject_Z (Z.of_nat k) / 4)%Q.
Definition lon_grid (a : list Q) : Prop :=
  ∀ (k : nat) (v : Q), a !! k = Some v → (v == inject_Z (Z.of_nat k) / 4 - 180)%Q.

(** The two float operations of [to_lat_index] lose nothing at [lat]: the
    difference [90 - lat] and its product by 4 are representable.  So it is
    for every Python [int], and for a float on the grid. *)
Definition exact_at (rnd : Q → Q) (lat : Q) : Prop :=
  (rnd (90 - lat) == 90 - lat)%Q ∧ (rnd ((90 - lat) * 4) == (90 - lat) * 4)%Q.

(** ** Vocabulary for [Visualize.__init__] *)

(** The attributes [__init__] has assigned when it enters its loop. *)
Definition attrs_before_loop (task_name : string) (data_paths : list (string * string))
    (outputs_dir : string) (projection : value)
    (time_steps : option (gmap string Z)) : object :=
  <["anim_dir" := VStr (os.path_join (os.path_join outputs_dir task_name) "animation")]>
  (<["frame_dir" := VStr (os.path_join (os.path_join outputs_dir task_name) "frame")]>
  (<["out_dir" := VStr (os.path_join outputs_dir task_name)]>
  (<["projection" := projection]>
  (<["time_steps" := from_option VSteps VNone time_steps]>
  (<["task_name" := VStr task_name]>
  (<["size" := VInt (Z.of_nat (length data_paths))]>
  (<["datasets" := VDatasets ∅]> ∅))))))).

(** What the loop of [__init__] needs of an item of [data_paths]: there is
    a grib file at the path and, when step counts are given, the name has
    one. *)
Definition loadable (w : world) (time_steps : option (gmap string Z))
    (item : string * string) : Prop :=
  is_Some (files w !! item.2) ∧
  match time_steps with
  | None => True
  | Some steps => is_Some (steps !! item.1)
  end.

(** What [create_dir] logs when [os.mkdir] is not refused. *)
Definition create_dir_log (dir : string) (w : world) : list event :=
  if decide (dir ∈ dirs w)
  then [Print ("[Visualize-LOG] Directory '" +:+ dir +:+ "' already exists")]
  else [Mkdir dir; Print ("[Visualize-LOG] Directory '" +:+ dir +:+ "' created")].

(** * Properties *)

(** ** Truncation, maximum and minimum *)

Section Numerics.

Local Open Scope Q_scope.

Lemma int_proper (p q : Q) : p == q → Py.int p = Py.int q.
Proof.
  intros E. unfold Py.int.
  rewrite (Qleb_comp 0 0 (Qeq_refl 0) p q E).
  destruct (Qle_bool 0 q); [apply Qfloor_comp | apply Qceiling_comp]; exact E.
Qed.

Lemma int_nonneg (q : Q) : 0 <= q → Py.int q = Qfloor q.
Proof.
  intros H. unfold Py.int. apply Qle_bool_iff in H. now rewrite H.
Qed.

Lemma int_inject_Z (z : Z) : Py.int (inject_Z z) = z.
Proof.
  unfold Py.int. destruct (Qle_bool 0 (inject_Z z)).
  - apply Qfloor_Z.
  - apply Qceiling_Z.
Qed.

(** Truncation toward zero is monotone. *)
Lemma int_mono (p q : Q) : p <= q → (Py.int p <= Py.int q)%Z.
Proof.
  intros H. unfold Py.int.
  destruct (Qle_bool 0 p) eqn:Ep, (Qle_bool 0 q) eqn:Eq.
  - now apply Qfloor_resp_le.
  - apply Qle_bool_iff in Ep.
    assert (Hq : ¬ 0 <= q) by (rewrite <- Qle_bool_iff; congruence).
    exfalso. apply Hq. now apply Qle_trans with p.
  - apply Qle_bool_iff in Eq.
    assert (Hp : ¬ 0 <= p) by (rewrite <- Qle_bool_iff; congruence).
    apply Z.le_trans with 0%Z.
    + change 0%Z with (Qceiling 0). apply Qceiling_resp_le.
      apply Qlt_le_weak, Qnot_le_lt, Hp.
    + change 0%Z with (Qfloor 0). now apply Qfloor_resp_le.
  - now apply Qceiling_resp_le.
Qed.

Lemma max_ge_r (a b : Q) : a <= b → Py.max a b == b.
Proof.
  intros H. unfold Py.max. destruct (Qle_bool b a) eqn:E.
  - apply Qle_bool_iff in E. now apply Qle_antisym.
  - reflexivity.
Qed.

Lemma min_le_r (a b : Q) : b <= a → Py.min a b == b.
Proof.
  intros H. unfold Py.min. destruct (Qle_bool a b) eqn:E.
  - apply Qle_bool_iff in E. now apply Qle_antisym.
  - reflexivity.
Qed.

Lemma to_lat_index_proper (p q : Q) : p == q → to_lat_index p = to_lat_index q.
Proof. intros E. apply int_proper. now rewrite E. Qed.

Lemma to_lon_index_proper (p q : Q) : p == q → to_lon_index p = to_lon_index q.
Proof. intros E. apply int_proper. now rewrite E. Qed.

(** Inside the grid the row index is the floor, so it names the cell. *)
Lemma to_lat_index_floor (lat : Q) :
  lat <= 90 → to_lat_index lat = Qfloor ((90 - lat) * 4).
Proof. intros H. apply int_nonneg. lra. Qed.

End Numerics.

(** ** Grid indices *)

Section GridIndexer.

Local Open Scope Q_scope.

(** [lra] after turning the division by 4 into a product. *)
Ltac quarter_lra := unfold Qdiv in *; change (/ 4) with (1 # 4) in *; lra.

Lemma Qfloor_unique (x : Q) (k : Z) :
  inject_Z k <= x → x < inject_Z k + 1 → Qfloor x = k.
Proof.
  intros Hlo Hhi.
  pose proof (Qfloor_le x) as Hf. pose proof (Qlt_floor x) as Hg.
  rewrite inject_Z_plus in Hg. change (inject_Z 1) with 1 in Hg.
  assert (H1 : inject_Z (Qfloor x) < inject_Z (k + 1)).
  { rewrite inject_Z_plus. change (inject_Z 1) with 1. lra. }
  assert (H2 : inject_Z k < inject_Z (Qfloor x + 1)).
  { rewrite inject_Z_plus. change (inject_Z 1) with 1. lra. }
  rewrite <- Zlt_Qlt in H1, H2. lia.
Qed.

Lemma in_cell_spec (k : Z) (lat : Q) :
  in_cell k lat = true ↔ 90 - (inject_Z k + 1) / 4 < lat ∧ lat <= 90 - inject_Z k / 4.
Proof.
  unfold in_cell. rewrite andb_true_iff, negb_true_iff, Qle_bool_iff.
  rewrite <- not_true_iff_false, Qle_bool_iff. split.
  - intros [H1 H2]. split; [now apply Qnot_le_lt | exact H2].
  - intros [H1 H2]. split; [now apply Qlt_not_le | exact H2].
Qed.

(** The row index of a latitude is the row whose cell holds it. *)
Lemma to_lat_index_cell (lat : Q) (k : Z) :
  lat <= 90 → to_lat_index lat = k ↔ in_cell k lat = true.
Proof.
  intros H. rewrite to_lat_index_floor by exact H. rewrite in_cell_spec. split.
  - intros <-. pose proof (Qfloor_le ((90 - lat) * 4)) as Hf.
    pose proof (Qlt_floor ((90 - lat) * 4)) as Hg.
    rewrite inject_Z_plus in Hg. change (inject_Z 1) with 1 in Hg.
    split; quarter_lra.
  - intros [H1 H2]. apply Qfloor_unique; quarter_lra.
Qed.

(** C1, as stated, fails at the south pole: [to_lat_index (-90)] is
    [720], above [90 * resolution_factor = 360]. *)
Lemma lat_index_exceeds_90_cells :
  (-90 <= -90 ∧ -90 <= 90) ∧
  ¬ (0 <= to_lat_index (-90) <= 90 * resolution_factor)%Z.
Proof.
  split.
  - split; unfold Qle; simpl; lia.
  - change (to_lat_index (-90)) with 720%Z. unfold resolution_factor. lia.
Qed.

(** C1 (amended): for every latitude in [-90, 90] the row index lies in
    [0, 180 * resolution_factor], and for every longitude in [-180, 180]
    the column index lies in [0, 360 * resolution_factor]. *)
Theorem index_bounds (lat lon : Q) :
  -90 <= lat → lat <= 90 → -180 <= lon → lon <= 180 →
  (0 <= to_lat_index lat <= 180 * resolution_factor)%Z ∧
  (0 <= to_lon_index lon <= 360 * resolution_factor)%Z.
Proof.
  intros Hlat1 Hlat2 Hlon1 Hlon2. unfold to_lat_index, to_lon_index.
  change (180 * resolution_factor)%Z with (Py.int (inject_Z 720)).
  change (360 * resolution_factor)%Z with (Py.int (inject_Z 1440)).
  change 0%Z with (Py.int (inject_Z 0)).
  repeat split; apply int_mono; unfold inject_Z; lra.
Qed.

Lemma index_bounds_witness :
  (0 <= to_lat_index (-90) <= 180 * resolution_factor)%Z ∧
  (0 <= to_lon_index 180 <= 360 * resolution_factor)%Z.
Proof.
  apply (index_bounds (-90) 180); unfold Qle; simpl; lia.
Defined.

(** C5: at resolution factor 4, the region centred at (40, -90) with
    half-extents 10 and 10 has the rows from the index of latitude 50 to
    the index of latitude 30, that is [160, 240), and the columns from
    the index of longitude -100 to the index of longitude -80, that is
    [320, 400); both lie inside [0, 720) x [0, 1440). *)
Theorem get_mask_scenario :
  get_mask 40 (-90) 10 10 =
    (Py.Slice (to_lat_index 50) (to_lat_index 30),
     Py.Slice (to_lon_index (-100)) (to_lon_index (-80))) ∧
  get_mask 40 (-90) 10 10 = (Py.Slice 160 240, Py.Slice 320 400) ∧
  (0 <= 160 ∧ 160 < 240 ∧ 240 <= 180 * resolution_factor)%Z ∧
  (0 <= 320 ∧ 320 < 400 ∧ 400 <= 360 * resolution_factor)%Z.
Proof.
  split; [reflexivity |]. split; [reflexivity |].
  unfold resolution_factor. lia.
Qed.

(** C7: when the half-extents reach past every edge of the globe, the
    region has the rows and columns of the region cut at the edges
    themselves (latitude -90 and 90, longitude -180 and 180): the whole
    grid, rows [0, 720) and columns [0, 1440). *)
Theorem get_mask_saturates (lat lon dlat dlon : Q) :
  lat - dlat <= -90 → 90 <= lat + dlat →
  lon - dlon <= -180 → 180 <= lon + dlon →
  get_mask lat lon dlat dlon = get_mask 0 0 90 180 ∧
  get_mask 0 0 90 180 =
    (Py.Slice (to_lat_index 90) (to_lat_index (-90)),
     Py.Slice (to_lon_index (-180)) (to_lon_index 180)) ∧
  get_mask 0 0 90 180 =
    (Py.Slice 0 (180 * resolution_factor), Py.Slice 0 (360 * resolution_factor)).
Proof.
  intros Hs Hn Hw He. split; [| split; reflexivity].
  change (get_mask 0 0 90 180) with
    (Py.Slice (to_lat_index 90) (to_lat_index (-90)),
     Py.Slice (to_lon_index (-180)) (to_lon_index 180)).
  unfold get_mask. f_equal; f_equal.
  - apply to_lat_index_proper, min_le_r, Hn.
  - apply to_lat_index_proper, max_ge_r, Hs.
  - apply to_lon_index_proper, max_ge_r, Hw.
  - apply to_lon_index_proper, min_le_r, He.
Qed.

Lemma get_mask_saturates_witness :
  get_mask 40 (-90) 1000 1000 = get_mask 0 0 90 180 ∧
  get_mask 0 0 90 180 =
    (Py.Slice (to_lat_index 90) (to_lat_index (-90)),
     Py.Slice (to_lon_index (-180)) (to_lon_index 180)) ∧
  get_mask 0 0 90 180 =
    (Py.Slice 0 (180 * resolution_factor), Py.Slice 0 (360 * resolution_factor)).
Proof.
  apply (get_mask_saturates 40 (-90) 1000 1000); unfold Qle; simpl; lia.
Defined.

End GridIndexer.

(** ** Slices *)

Section Slices.

Context {A : Type}.

Lemma clip_le (i : Z) (len : nat) : (Py.clip i len ≤ len)%nat.
Proof. unfold Py.clip. destruct (i <? 0)%Z; lia. Qed.

Lemma length_getslice (l : list A) (s : Py.slice) :
  length (Py.getslice l s) = Py.slice_len s (length l).
Proof.
  unfold Py.getslice, Py.slice_len.
  rewrite length_take, length_drop.
  pose proof (clip_le (Py.stop s) (length l)). lia.
Qed.

Lemma getitem_elem_of (l : list A) (i : Z) (x : A) :
  Py.getitem l i = Some x → x ∈ l.
Proof.
  unfold Py.getitem. destruct (_ && _); [| discriminate].
  intros Hx. apply list_elem_of_lookup. eauto.
Qed.

Lemma Forall_getslice (P : A → Prop) (l : list A) (s : Py.slice) :
  Forall P l → Forall P (Py.getslice l s).
Proof. intros H. unfold Py.getslice. now apply Forall_take, Forall_drop. Qed.

(** An index inside the sequence selects an element. *)
Lemma getitem_is_Some (l : list A) (i : Z) :
  (0 <= i < Z.of_nat (length l))%Z → is_Some (Py.getitem l i).
Proof.
  intros H. unfold Py.getitem.
  destruct (i <? 0)%Z eqn:E; [lia |].
  replace ((0 <=? i)%Z && (i <? Z.of_nat (length l))%Z) with true
    by (symmetry; apply andb_true_iff; lia).
  apply lookup_lt_is_Some. lia.
Qed.

End Slices.

Lemma array2_getslice_shape (a : array2) (rmask cmask : Py.slice) :
  shape (array2_getslice a rmask cmask) =
    (Py.slice_len rmask (length (rows a)), Py.slice_len cmask (ncols a)).
Proof.
  unfold shape, array2_getslice. cbn [rows ncols].
  now rewrite length_fmap, length_getslice.
Qed.

Lemma array2_getslice_wf (a : array2) (rmask cmask : Py.slice) :
  array2_wf a → array2_wf (array2_getslice a rmask cmask).
Proof.
  unfold array2_wf, array2_getslice. cbn [rows ncols]. intros H.
  apply Forall_fmap, Forall_getslice.
  eapply Forall_impl; [exact H |]. intros r Hr. unfold compose.
  now rewrite length_getslice, Hr.
Qed.

(** ** DataSet.getMesh *)

Section GetMesh.

Variable self : DataSet.
Variable time_step : Z.
Variables lat lon dlat dlon : option Q.

Lemma getMesh_out_of_range :
  (time_steps self <= time_step)%Z →
  getMesh self time_step lat lon dlat dlon = inl OutOfRangeError.
Proof.
  intros H. unfold getMesh.
  replace (time_step >=? time_steps self)%Z with true; [reflexivity |].
  symmetry. rewrite Z.geb_leb. now apply Z.leb_le.
Qed.

Lemma getMesh_in_range :
  (time_step < time_steps self)%Z →
  (time_step >=? time_steps self)%Z = false.
Proof. intros H. rewrite Z.geb_leb. now apply Z.leb_gt. Qed.

(** C3: [getMesh] raises the ambiguous-region error exactly when the time
    step is below the declared count and one, two or three of the four
    region arguments are supplied; with none or all four supplied it
    never raises that error. *)
Theorem getMesh_ambiguous_iff :
  getMesh self time_step lat lon dlat dlon = inl AmbiguousRegionError ↔
  (time_step < time_steps self)%Z ∧
  (1 ≤ supplied lat lon dlat dlon ≤ 3)%nat.
Proof.
  destruct (Z.le_gt_cases (time_steps self) time_step) as [Hge | Hlt].
  - rewrite getMesh_out_of_range by exact Hge.
    split; [discriminate | intros [Hlt _]; lia].
  - unfold getMesh. rewrite getMesh_in_range by exact Hlt.
    destruct lat, lon, dlat, dlon; cbn -[get_mask];
      try (split; [intros _; split; [exact Hlt | lia] | reflexivity]).
    + destruct (get_mask _ _ _ _).
      destruct (Dataset_getitem _ _) as [e | field] eqn:E1; cbn.
      * unfold Dataset_getitem, or_raise in E1. case_match; simplify_eq.
        split; [discriminate | lia].
      * destruct (field_getitem _ _) as [e | layer] eqn:E2; cbn.
        -- unfold field_getitem, or_raise in E2. case_match; simplify_eq.
           split; [discriminate | lia].
        -- split; [discriminate | lia].
    + destruct (Dataset_getitem _ _) as [e | field] eqn:E1; cbn.
      * unfold Dataset_getitem, or_raise in E1. case_match; simplify_eq.
        split; [discriminate | lia].
      * destruct (field_getitem _ _) as [e | layer] eqn:E2; cbn.
        -- unfold field_getitem, or_raise in E2. case_match; simplify_eq.
           split; [discriminate | lia].
        -- split; [discriminate | lia].
Qed.

(** C10: the time-step check comes first: with the time step at or
    above the declared count and the region partially specified,
    [getMesh] raises the out-of-range error and not the ambiguous-region
    error. *)
Theorem getMesh_bound_check_first :
  (time_steps self <= time_step)%Z →
  (1 ≤ supplied lat lon dlat dlon ≤ 3)%nat →
  getMesh self time_step lat lon dlat dlon = inl OutOfRangeError ∧
  getMesh self time_step lat lon dlat dlon ≠ inl AmbiguousRegionError.
Proof.
  intros Hge _. rewrite getMesh_out_of_range by exact Hge.
  split; [reflexivity | discriminate].
Qed.

(** C6: when the field of the data variable has a row per latitude and a
    column per longitude, the arrays a successful [getMesh] returns agree
    in shape: as many latitudes as rows of the field, as many longitudes
    as columns, and every row of the field has one entry per longitude. *)
Theorem getMesh_shape (latmesh lonmesh : list Q) (fieldmesh : array2) :
  Dataset_consistent (array self) (data_var self) →
  getMesh self time_step lat lon dlat dlon = inr (latmesh, lonmesh, fieldmesh) →
  length latmesh = (shape fieldmesh).1 ∧
  length lonmesh = (shape fieldmesh).2 ∧
  array2_wf fieldmesh.
Proof.
  intros Hc. unfold getMesh.
  destruct (time_step >=? time_steps self)%Z; [discriminate |].
  assert (Hlayer : ∀ field layer,
      Dataset_getitem (array self) (data_var self) = inr field →
      field_getitem field time_step = inr layer →
      array2_wf layer ∧
      shape layer = (length (latitude (array self)),
                     length (longitude (array self)))).
  { intros field layer E1 E2.
    unfold Dataset_getitem, or_raise in E1.
    destruct (data_vars _ !! _) as [f |] eqn:Ef; simplify_eq.
    unfold field_getitem, or_raise in E2.
    destruct (Py.getitem _ _) as [l |] eqn:El; simplify_eq.
    eapply Hc; [exact Ef | eapply getitem_elem_of, El]. }
  destruct lat, lon, dlat, dlon; try discriminate.
  - destruct (get_mask _ _ _ _) as [latmask lonmask].
    destruct (Dataset_getitem _ _) as [e | field] eqn:E1; [discriminate |].
    cbn -[array2_getslice Py.getslice shape].
    destruct (field_getitem _ _) as [e | layer] eqn:E2; [discriminate |].
    cbn -[array2_getslice Py.getslice shape]. intros [= <- <- <-].
    destruct (Hlayer _ _ eq_refl E2) as [Hwf Hsh].
    rewrite array2_getslice_shape, !length_getslice. cbn [fst snd].
    injection Hsh as -> ->. repeat split.
    now apply array2_getslice_wf.
  - destruct (Dataset_getitem _ _) as [e | field] eqn:E1; [discriminate |].
    cbn -[shape]. destruct (field_getitem _ _) as [e | layer] eqn:E2; [discriminate |].
    cbn -[shape]. intros [= <- <- <-].
    destruct (Hlayer _ _ eq_refl E2) as [Hwf Hsh].
    rewrite Hsh. cbn [fst snd]. repeat split. exact Hwf.
Qed.

End GetMesh.

Lemma getMesh_bound_check_first_witness :
  getMesh u100 2 (Some 90%Q) None None None = inl OutOfRangeError ∧
  getMesh u100 2 (Some 90%Q) None None None ≠ inl AmbiguousRegionError.
Proof.
  apply (getMesh_bound_check_first u100 2 (Some 90%Q) None None None).
  - unfold u100. simpl. lia.
  - unfold supplied. simpl. lia.
Defined.

Lemma grid0_consistent : Dataset_consistent grid0 "u100".
Proof.
  intros field layer Hf Hl. unfold grid0 in Hf. cbn in Hf.
  rewrite lookup_singleton_eq in Hf. injection Hf as <-.
  apply elem_of_cons in Hl as [-> | Hl].
  { split; [repeat constructor | reflexivity]. }
  apply elem_of_cons in Hl as [-> | Hl].
  { split; [repeat constructor | reflexivity]. }
  inversion Hl.
Defined.

Lemma getMesh_shape_witness :
  length [90%Q] = (shape (Array2 1 [[7%Q]])).1 ∧
  length [(-180)%Q] = (shape (Array2 1 [[7%Q]])).2 ∧
  array2_wf (Array2 1 [[7%Q]]).
Proof.
  apply (getMesh_shape u100 1 (Some 90%Q) (Some (-180)%Q)
           (Some (1 # 4)) (Some (1 # 4))).
  - exact grid0_consistent.
  - vm_compute. reflexivity.
Defined.

(** ** Visualize *)

(** Unfold one layer of the effect monad. *)
Ltac step := unfold mbind, M_bind, mret, M_ret, mthrow, M_throw, lift,
  print, emit, getattr, open_dataset, or_raise in *;
  cbn [fst snd dirs mkdir_error files log] in *.

Section Construction.

Lemma ne_str_spec (v : value) (s : string) : ne_str v s = true ↔ v ≠ VStr s.
Proof.
  unfold ne_str, eq_str. destruct v; try (split; [discriminate | reflexivity]).
  rewrite negb_true_iff. split.
  - intros H [= ->]. now rewrite String.eqb_refl in H.
  - intros H. apply String.eqb_neq. congruence.
Qed.

Lemma os_exn_not_RuntimeError (e : oserror) (path : string) :
  is_RuntimeError (os_exn e path) = false.
Proof. destruct e; reflexivity. Qed.

(** [create_dir] passes on what [os.mkdir] is refused with, and absorbs
    the directory being there. *)
Lemma create_dir_cases (dir : string) (w : world) :
  match mkdir_error w dir with
  | Some e => Visualize.create_dir dir w = (inl (os_exn e dir), w)
  | None =>
      ∃ w', Visualize.create_dir dir w = (inr tt, w') ∧
            dirs w' = {[dir]} ∪ dirs w ∧ mkdir_error w' = mkdir_error w ∧
            files w' = files w ∧ log w' = log w ++ create_dir_log dir w
  end.
Proof.
  unfold Visualize.create_dir, try_except_FileExistsError, os.mkdir, create_dir_log. step.
  destruct (mkdir_error w dir) as [e |].
  - destruct e; reflexivity.
  - destruct (decide (dir ∈ dirs w)) as [Hin | Hout]; cbn; step.
    + eexists. split; [reflexivity |]. cbn [dirs mkdir_error files log].
      split; [set_solver | done].
    + eexists. split; [reflexivity |]. cbn [dirs mkdir_error files log].
      repeat (split; [done |]). now rewrite <- app_assoc.
Qed.

Variable time_steps_arg : option (gmap string Z).

Lemma prepare_inv (item : string * string) (self self' : object) (w w' : world) :
  Visualize.prepare time_steps_arg item self w = (inr self', w') →
  ∃ d ds n,
    self !! "datasets" = Some (VDatasets d) ∧
    files w !! item.2 = Some ds ∧
    self' = <["datasets" := VDatasets (<[item.1 := Build_DataSet ds n item.1]> d)]> self ∧
    match time_steps_arg with
    | None => n = 1%Z
    | Some steps => steps !! item.1 = Some n
    end.
Proof.
  destruct item as [data_name data_path]. unfold Visualize.prepare. step.
  destruct (files w !! data_path) as [ds |] eqn:Ef; [| discriminate].
  destruct time_steps_arg as [steps |].
  - destruct (steps !! data_name) as [n |] eqn:En; [| discriminate].
    cbn. destruct (self !! "datasets") as [[] |] eqn:Ed; try discriminate.
    intros [= <- <-]. eauto 10.
  - cbn. destruct (self !! "datasets") as [[] |] eqn:Ed; try discriminate.
    intros [= <- <-]. eauto 10.
Qed.

Lemma prepare_raises (item : string * string) (self : object) (w w' : world) (e : exn) :
  Visualize.prepare time_steps_arg item self w = (inl e, w') →
  is_RuntimeError e = false.
Proof.
  destruct item as [data_name data_path]. unfold Visualize.prepare. step.
  destruct (files w !! data_path) as [ds |]; [| now intros [= <- <-]].
  destruct time_steps_arg as [steps |].
  - destruct (steps !! data_name) as [n |]; [| now intros [= <- <-]].
    cbn. destruct (self !! "datasets") as [[] |]; now intros [= <- <-].
  - cbn. destruct (self !! "datasets") as [[] |]; now intros [= <- <-].
Qed.

(** One round of the loop logs the name, opens the file when it decodes,
    and leaves directories and files as they are, whether it raises or
    not. *)
Lemma prepare_world (item : string * string) (self : object) (w w' : world)
    (r : result object) :
  Visualize.prepare time_steps_arg item self w = (r, w') →
  dirs w' = dirs w ∧ files w' = files w ∧
  log w' = log w ++ Print ("[Visualize-LOG] Preparing dataset for " +:+ item.1)
             :: match files w !! item.2 with
                | Some _ => [OpenDataset item.2]
                | None => []
                end.
Proof.
  destruct item as [data_name data_path]. unfold Visualize.prepare. step.
  destruct (files w !! data_path) as [ds |].
  - destruct time_steps_arg as [steps |].
    + destruct (steps !! data_name) as [n |]; cbn.
      * destruct (self !! "datasets") as [[] |]; intros [= <- <-];
          cbn [dirs files log]; now rewrite <- app_assoc.
      * intros [= <- <-]. cbn [dirs files log]. now rewrite <- app_assoc.
    + cbn. destruct (self !! "datasets") as [[] |]; intros [= <- <-];
        cbn [dirs files log]; now rewrite <- app_assoc.
  - intros [= <- <-]. cbn [dirs files log]. done.
Qed.

Lemma prepare_returns (item : string * string) (self : object) (w : world)
    (d : gmap string DataSet) :
  self !! "datasets" = Some (VDatasets d) → loadable w time_steps_arg item →
  ∃ self' w', Visualize.prepare time_steps_arg item self w = (inr self', w').
Proof.
  destruct item as [data_name data_path]. intros Hd [[ds Hf] Hn].
  unfold Visualize.prepare. step. cbn [fst snd] in *. rewrite Hf.
  destruct time_steps_arg as [steps |].
  - destruct Hn as [n Hn]. rewrite Hn. cbn. rewrite Hd. eauto.
  - cbn. rewrite Hd. eauto.
Qed.

(** The loop over [data_paths] assigns [self.datasets] and nothing else. *)
Lemma for_each_prepare_attr (data_paths : list (string * string)) :
  ∀ (self self' : object) (w w' : world) (name : string),
  for_each data_paths (Visualize.prepare time_steps_arg) self w = (inr self', w') →
  name ≠ "datasets" → self' !! name = self !! name.
Proof.
  induction data_paths as [| item rest IH]; intros self self' w w' name.
  - cbn. step. now intros [= <- <-].
  - cbn [for_each]. unfold mbind, M_bind.
    destruct (Visualize.prepare _ _ _ _) as [[e | self1] w1] eqn:E; [discriminate |].
    intros Hrest Hname. rewrite (IH _ _ _ _ _ Hrest Hname).
    apply prepare_inv in E as (d & ds & n & _ & _ & -> & _).
    now rewrite lookup_insert_ne.
Qed.

Lemma for_each_prepare_raises (data_paths : list (string * string)) :
  ∀ (self : object) (w w' : world) (e : exn),
  for_each data_paths (Visualize.prepare time_steps_arg) self w = (inl e, w') →
  is_RuntimeError e = false.
Proof.
  induction data_paths as [| item rest IH]; intros self w w' e.
  - cbn. step. discriminate.
  - cbn [for_each]. unfold mbind, M_bind.
    destruct (Visualize.prepare _ _ _ _) as [[e1 | self1] w1] eqn:E.
    + intros [= <- <-]. eapply prepare_raises, E.
    + apply IH.
Qed.

Lemma for_each_prepare_world (data_paths : list (string * string)) :
  ∀ (self : object) (w w' : world) (r : result object),
  for_each data_paths (Visualize.prepare time_steps_arg) self w = (r, w') →
  dirs w' = dirs w ∧ files w' = files w.
Proof.
  induction data_paths as [| item rest IH]; intros self w w' r.
  - cbn. step. now intros [= <- <-].
  - cbn [for_each]. unfold mbind, M_bind.
    destruct (Visualize.prepare _ _ _ _) as [[e | self1] w1] eqn:E;
      apply prepare_world in E as (Hd & Hf & _).
    + now intros [= <- <-].
    + intros H. apply IH in H as [Hd' Hf']. split; congruence.
Qed.

Lemma for_each_app {A S} (l1 l2 : list A) (body : A → S → M S) (s : S) (w : world) :
  for_each (l1 ++ l2) body s w =
  match for_each l1 body s w with
  | (inl e, w') => (inl e, w')
  | (inr s', w') => for_each l2 body s' w'
  end.
Proof.
  revert s w. induction l1 as [| x l1 IH]; intros s w.
  - reflexivity.
  - cbn [for_each app]. unfold mbind, M_bind.
    destruct (body x s w) as [[e | s1] w1]; [reflexivity | apply IH].
Qed.

(** What the loop has put into [self.datasets] when it is through. *)
Lemma for_each_prepare_catalog (data_paths : list (string * string)) :
  ∀ (self self' : object) (w w' : world) (d : gmap string DataSet),
  for_each data_paths (Visualize.prepare time_steps_arg) self w = (inr self', w') →
  self !! "datasets" = Some (VDatasets d) →
  ∃ d', self' = <["datasets" := VDatasets d']> self ∧
    dom d' = dom d ∪ list_to_set data_paths.*1 ∧
    ∀ name ds, d' !! name = Some ds →
      d !! name = Some ds ∨
      (data_var ds = name ∧
       (∃ path, (name, path) ∈ data_paths ∧ files w !! path = Some (array ds)) ∧
       match time_steps_arg with
       | None => time_steps ds = 1%Z
       | Some steps => steps !! name = Some (time_steps ds)
       end).
Proof.
  induction data_paths as [| item rest IH]; intros self self' w w' d.
  - cbn. step. intros [= <- <-] Hd. exists d.
    split; [now rewrite insert_id |]. split; [set_solver | auto].
  - cbn [for_each]. unfold mbind, M_bind.
    destruct (Visualize.prepare _ _ _ _) as [[e | self1] w1] eqn:E; [discriminate |].
    intros Hrest Hd.
    pose proof (prepare_world _ _ _ _ _ E) as (_ & Hfiles & _).
    apply prepare_inv in E as (d0 & ds & n & Hd0 & Hfile & -> & Hn).
    rewrite Hd in Hd0. injection Hd0 as <-.
    destruct item as [data_name data_path]. cbn [fst snd] in *.
    eapply IH in Hrest as (d' & -> & Hdom & Hent); [| apply lookup_insert_eq].
    exists d'. split; [apply insert_insert_eq |]. split.
    + rewrite Hdom, dom_insert_L. cbn [fmap list_fmap fst]. set_solver.
    + intros name x Hx. apply Hent in Hx as [Hx | (Hv & (path & Hin & Hp) & Hc)].
      * destruct (decide (data_name = name)) as [<- | Hne].
        -- rewrite lookup_insert_eq in Hx. injection Hx as <-. right.
           split; [reflexivity |]. split; [| exact Hn].
           exists data_path. split; [left | exact Hfile].
        -- rewrite lookup_insert_ne in Hx by done. now left.
      * right. split; [exact Hv |]. split; [| exact Hc].
        exists path. split; [now right | congruence].
Qed.

(** The loop goes through exactly when every item is loadable. *)
Lemma for_each_prepare_returns_iff (data_paths : list (string * string)) :
  ∀ (self : object) (w : world) (d : gmap string DataSet),
  self !! "datasets" = Some (VDatasets d) →
  (∃ self' w', for_each data_paths (Visualize.prepare time_steps_arg) self w = (inr self', w')) ↔
  Forall (loadable w time_steps_arg) data_paths.
Proof.
  induction data_paths as [| item rest IH]; intros self w d Hd.
  - split; [constructor |]. intros _. cbn. step. eauto.
  - cbn [for_each]. unfold mbind, M_bind. split.
    + intros (self' & w' & H).
      destruct (Visualize.prepare _ _ _ _) as [[e | self1] w1] eqn:E; [discriminate |].
      pose proof (prepare_world _ _ _ _ _ E) as (Hdirs & Hfiles & _).
      apply prepare_inv in E as (d0 & ds & n & _ & Hfile & -> & Hn).
      assert (Hrest : Forall (loadable w1 time_steps_arg) rest).
      { eapply IH; [apply lookup_insert_eq | eauto]. }
      constructor.
      * split; [eauto |]. destruct time_steps_arg; [eauto | done].
      * eapply Forall_impl; [exact Hrest |]. intros x [Hx1 Hx2].
        split; [now rewrite <- Hfiles | exact Hx2].
    + intros H. apply Forall_cons in H as [Hitem Hrest].
      destruct (prepare_returns item self w d Hd Hitem) as (self1 & w1 & E).
      rewrite E.
      pose proof (prepare_world _ _ _ _ _ E) as (Hdirs & Hfiles & _).
      apply prepare_inv in E as (d0 & ds & n & _ & _ & -> & _).
      eapply IH; [apply lookup_insert_eq |].
      eapply Forall_impl; [exact Hrest |]. intros x [Hx1 Hx2].
      split; [now rewrite Hfiles | exact Hx2].
Qed.

End Construction.

Section Constructed.

Variables task_name outputs_dir : string.
Variable data_paths : list (string * string).
Variables mode projection : value.
Variable time_steps_arg : option (gmap string Z).
Variable w : world.

(** [__init__] up to its loop: the log line, the attributes, the output
    directory, the mode check. *)
Lemma init_unfold :
  match mkdir_error w (os.path_join outputs_dir task_name) with
  | Some e =>
      ∃ w', dirs w' = dirs w ∧ files w' = files w ∧
        Visualize.__init__ task_name data_paths outputs_dir mode projection
          time_steps_arg w = (inl (os_exn e (os.path_join outputs_dir task_name)), w')
  | None =>
      ∃ w0,
        dirs w0 = {[os.path_join outputs_dir task_name]} ∪ dirs w ∧
        files w0 = files w ∧
        log w0 = log w ++
          Print ("[Visualize-LOG] Creating a new visualize class for taks "
                 +:+ task_name +:+ " with " +:+ pretty (Z.of_nat (length data_paths))
                 +:+ " climate variables")
          :: create_dir_log (os.path_join outputs_dir task_name) w ∧
        Visualize.__init__ task_name data_paths outputs_dir mode projection
          time_steps_arg w =
          if ne_str mode "scalar" && ne_str mode "vector"
          then (inl UnsupportedModeError, w0)
          else for_each data_paths (Visualize.prepare time_steps_arg)
                 (attrs_before_loop task_name data_paths outputs_dir projection
                    time_steps_arg)
                 w0
  end.
Proof.
  unfold Visualize.__init__. step.
  match goal with |- context [Visualize.create_dir ?d ?w1] =>
    pose proof (create_dir_cases d w1) as Hc end.
  cbn [dirs mkdir_error files log] in Hc.
  destruct (mkdir_error w (os.path_join outputs_dir task_name)) as [e |].
  - rewrite Hc. eexists. split; [| split; [| reflexivity]]; reflexivity.
  - destruct Hc as (w0 & E & Hd & _ & Hf & Hl). rewrite E. exists w0.
    split; [exact Hd |]. split; [exact Hf |]. split.
    + rewrite Hl, <- app_assoc. reflexivity.
    + destruct (ne_str mode "scalar" && ne_str mode "vector"); reflexivity.
Qed.

Lemma attrs_before_loop_datasets :
  attrs_before_loop task_name data_paths outputs_dir projection time_steps_arg
    !! "datasets" = Some (VDatasets ∅).
Proof. reflexivity. Qed.

(** [__init__] never assigns [self.mode]. *)
Lemma init_no_mode (self : object) (w' : world) :
  Visualize.__init__ task_name data_paths outputs_dir mode projection time_steps_arg w =
    (inr self, w') →
  self !! "mode" = None.
Proof.
  pose proof init_unfold as Hi.
  destruct (mkdir_error w _) as [e |].
  - destruct Hi as (w1 & _ & _ & ->). discriminate.
  - destruct Hi as (w0 & _ & _ & _ & ->).
    destruct (ne_str mode "scalar" && ne_str mode "vector"); [discriminate |].
    intros H. eapply for_each_prepare_attr with (name := "mode") in H; [| done].
    rewrite H. reflexivity.
Qed.

(** C9 (amended): construction raises the unsupported-mode error exactly
    when the mode is neither "scalar" nor "vector" and [os.mkdir] is not
    refused the output directory; where it is refused, [create_dir], which
    runs before the mode is looked at and catches [FileExistsError] alone,
    lets that error through instead. *)
Theorem init_unsupported_mode_iff :
  (Visualize.__init__ task_name data_paths outputs_dir mode projection time_steps_arg w).1 =
    inl UnsupportedModeError ↔
  mode ≠ VStr "scalar" ∧ mode ≠ VStr "vector" ∧
  mkdir_error w (os.path_join outputs_dir task_name) = None.
Proof.
  pose proof init_unfold as Hi.
  destruct (mkdir_error w _) as [e |].
  - destruct Hi as (w1 & _ & _ & ->). cbn [fst]. split.
    + intros [= H]. pose proof (os_exn_not_RuntimeError e (os.path_join outputs_dir task_name)) as Hn.
      rewrite H in Hn. discriminate.
    + intros (_ & _ & ?). discriminate.
  - destruct Hi as (w0 & _ & _ & _ & ->).
    rewrite <- !ne_str_spec.
    destruct (ne_str mode "scalar"), (ne_str mode "vector"); cbn [andb fst];
      try (split; [| intros (? & ? & _); discriminate];
           destruct (for_each _ _ _ _) as [[e | self] w'] eqn:E; [| discriminate];
           apply for_each_prepare_raises in E; cbn; intros [= ->]; discriminate).
    split; [done | reflexivity].
Qed.

(** C2 fails on the code: on the instance [__init__] returns, both entry
    points raise [AttributeError] for [self.mode] before the dataset
    count is looked at, whatever the number of datasets, and leave the
    world as it was. *)
Theorem constructed_has_no_mode (self : object) (w' : world) :
  Visualize.__init__ task_name data_paths outputs_dir mode projection time_steps_arg w =
    (inr self, w') →
  ∀ (lat lon dlat dlon : option Q) (title : value) (w1 : world),
    Visualize.populate_frame self lat lon dlat dlon title w1 =
      (inl (AttributeError "mode"), w1) ∧
    Visualize.animate_from_frames self w1 = (inl (AttributeError "mode"), w1).
Proof.
  intros H lat lon dlat dlon title w1. apply init_no_mode in H.
  unfold Visualize.populate_frame, Visualize.animate_from_frames. step.
  now rewrite H.
Qed.

End Constructed.

(** C9, as stated, fails where the output directory cannot be made: with
    no directory ["nodir"], a construction with the mode ["tensor"] raises
    [FileNotFoundError] for ["nodir/test"], not the mode error. *)
Lemma init_mode_error_preempted :
  VStr "tensor" ≠ VStr "scalar" ∧ VStr "tensor" ≠ VStr "vector" ∧
  (Visualize.__init__ "test" [("u100", "data/u.grib")] "nodir" (VStr "tensor")
     (VOpaque "PlateCarree") None world_no_parent).1 =
    inl (FileNotFoundError "nodir/test") ∧
  (Visualize.__init__ "test" [("u100", "data/u.grib")] "nodir" (VStr "tensor")
     (VOpaque "PlateCarree") None world_no_parent).1 ≠ inl UnsupportedModeError.
Proof.
  split; [discriminate |]. split; [discriminate |].
  assert (E : (Visualize.__init__ "test" [("u100", "data/u.grib")] "nodir" (VStr "tensor")
     (VOpaque "PlateCarree") None world_no_parent).1 =
    inl (FileNotFoundError "nodir/test")) by (vm_compute; reflexivity).
  split; [exact E |]. rewrite E. discriminate.
Qed.

Lemma constructed_has_no_mode_witness :
  ∃ self w' d,
    Visualize.__init__ "test" [("u100", "/data/u.grib"); ("v100", "/data/v.grib")]
      "/out" (VStr "scalar") (VOpaque "PlateCarree") None world0 = (inr self, w') ∧
    self !! "datasets" = Some (VDatasets d) ∧ size d = 2%nat ∧
    Visualize.populate_frame self None None None None VNone w' =
      (inl (AttributeError "mode"), w') ∧
    Visualize.animate_from_frames self w' = (inl (AttributeError "mode"), w').
Proof.
  assert (Hr : match (Visualize.__init__ "test"
                [("u100", "/data/u.grib"); ("v100", "/data/v.grib")]
                "/out" (VStr "scalar") (VOpaque "PlateCarree") None world0).1 with
               | inr _ => True
               | inl _ => False
               end) by (vm_compute; exact I).
  destruct (Visualize.__init__ "test" [("u100", "/data/u.grib"); ("v100", "/data/v.grib")]
      "/out" (VStr "scalar") (VOpaque "PlateCarree") None world0)
    as [[e | self] w'] eqn:E.
  { destruct Hr. }
  exists self, w'.
  exists {[ "u100" := Build_DataSet grid0 1 "u100"; "v100" := Build_DataSet grid0 1 "v100" ]}.
  split; [reflexivity |]. split.
  { transitivity
      (match (Visualize.__init__ "test"
                [("u100", "/data/u.grib"); ("v100", "/data/v.grib")]
                "/out" (VStr "scalar") (VOpaque "PlateCarree") None world0).1 with
       | inr s => s !! "datasets"
       | inl _ => None
       end).
    - rewrite E. reflexivity.
    - vm_compute. reflexivity. }
  split; [vm_compute; reflexivity |].
  apply (constructed_has_no_mode _ _ _ _ _ _ _ _ _ E).
Defined.

(** ** Time steps *)

Lemma getMesh_in_range_other (self : DataSet) (time_step : Z)
    (lat lon dlat dlon : option Q) :
  (time_step < time_steps self)%Z →
  getMesh self time_step lat lon dlat dlon ≠ inl OutOfRangeError.
Proof.
  intros Hlt. unfold getMesh. rewrite getMesh_in_range by exact Hlt.
  assert (Hbody : ∀ k : array2 → mesh,
    (field ← Dataset_getitem (array self) (data_var self);
     layer ← field_getitem field time_step;
     mret (k layer) : result mesh) ≠ inl OutOfRangeError).
  { intros k. unfold Dataset_getitem, field_getitem, or_raise.
    destruct (data_vars _ !! _) as [field |]; cbn; [| discriminate].
    destruct (Py.getitem field time_step); cbn; discriminate. }
  destruct lat, lon, dlat, dlon; try discriminate.
  - destruct (get_mask _ _ _ _) as [latmask lonmask].
    apply (Hbody (fun layer =>
      (Py.getslice (latitude (array self)) latmask,
       Py.getslice (longitude (array self)) lonmask,
       array2_getslice layer latmask lonmask))).
  - apply (Hbody (fun layer =>
      (latitude (array self), longitude (array self), layer))).
Qed.

(** The catalog built for a single dataset. *)
Lemma init_single (task_name outputs_dir data_name data_path : string)
    (mode projection : value) (count : Z) (w w' : world) (self : object) :
  Visualize.__init__ task_name [(data_name, data_path)] outputs_dir mode
    projection (Some {[ data_name := count ]}) w = (inr self, w') →
  ∃ grid, files w !! data_path = Some grid ∧
    self !! "datasets" =
      Some (VDatasets {[ data_name := Build_DataSet grid count data_name ]}).
Proof.
  pose proof (init_unfold task_name outputs_dir [(data_name, data_path)]
                mode projection (Some {[ data_name := count ]}) w) as Hi.
  destruct (mkdir_error w _) as [e |].
  { destruct Hi as (w1 & _ & _ & ->). discriminate. }
  destruct Hi as (w0 & _ & Hf & _ & ->).
  destruct (ne_str mode "scalar" && ne_str mode "vector"); [discriminate |].
  cbn [for_each]. unfold mbind at 1, M_bind at 1.
  destruct (Visualize.prepare _ _ _ _) as [[e | self1] w1] eqn:E; [discriminate |].
  step. intros [= <- <-].
  apply prepare_inv in E as (d & grid & n & Hd & Hfile & -> & Hn).
  cbn [fst snd] in *. rewrite attrs_before_loop_datasets in Hd. injection Hd as <-.
  rewrite lookup_singleton_eq in Hn. injection Hn as <-.
  exists grid. split; [congruence | apply lookup_insert_eq].
Qed.

(** C4: [getMesh] raises the out-of-range error exactly when the time
    step is at or above the declared count; in the catalog built for
    ["u100"] with 24 declared steps, the whole-grid query at step 24
    raises it. *)
Theorem getMesh_out_of_range_iff :
  (∀ (self : DataSet) (time_step : Z) (lat lon dlat dlon : option Q),
     getMesh self time_step lat lon dlat dlon = inl OutOfRangeError ↔
     (time_steps self <= time_step)%Z) ∧
  (∀ (task_name outputs_dir data_path : string) (mode projection : value)
     (w w' : world) (self : object),
     Visualize.__init__ task_name [("u100", data_path)] outputs_dir mode
       projection (Some {[ "u100" := 24%Z ]}) w = (inr self, w') →
     ∃ ds,
       self !! "datasets" = Some (VDatasets {[ "u100" := ds ]}) ∧
       time_steps ds = 24%Z ∧
       getMesh ds 24 None None None None = inl OutOfRangeError).
Proof.
  split.
  - intros self time_step lat lon dlat dlon. split.
    + intros H. destruct (Z.le_gt_cases (time_steps self) time_step) as [Hge | Hlt].
      * exact Hge.
      * now apply getMesh_in_range_other in H.
    + apply getMesh_out_of_range.
  - intros task_name outputs_dir data_path mode projection w w' self E.
    apply init_single in E as (grid & _ & Hd).
    exists (Build_DataSet grid 24 "u100").
    split; [exact Hd |]. split; [reflexivity |].
    apply getMesh_out_of_range. cbn. lia.
Qed.

Lemma getMesh_out_of_range_iff_witness :
  ∃ self w' ds,
    Visualize.__init__ "test" [("u100", "/data/u.grib")] "/out" (VStr "scalar")
      (VOpaque "PlateCarree") (Some {[ "u100" := 24%Z ]}) world0 = (inr self, w') ∧
    self !! "datasets" = Some (VDatasets {[ "u100" := ds ]}) ∧
    time_steps ds = 24%Z ∧
    getMesh ds 24 None None None None = inl OutOfRangeError.
Proof.
  assert (Hr : match (Visualize.__init__ "test" [("u100", "/data/u.grib")] "/out"
                        (VStr "scalar") (VOpaque "PlateCarree")
                        (Some {[ "u100" := 24%Z ]}) world0).1 with
               | inr _ => True
               | inl _ => False
               end) by (vm_compute; exact I).
  destruct (Visualize.__init__ "test" [("u100", "/data/u.grib")] "/out"
              (VStr "scalar") (VOpaque "PlateCarree")
              (Some {[ "u100" := 24%Z ]}) world0) as [[e | self] w'] eqn:E.
  { destruct Hr. }
  destruct (proj2 getMesh_out_of_range_iff "test" "/out" "/data/u.grib"
              (VStr "scalar") (VOpaque "PlateCarree") world0 w' self E) as (ds & H).
  exists self, w', ds. split; [reflexivity | exact H].
Defined.

(** ** The dataset count, were [self.mode] assigned *)

(** X25: on an instance that does carry a [mode] and a dataset dictionary
    of the wrong size, both entry points raise the count error and leave
    the world, its log included, as it was. *)
Lemma count_check_with_mode (self : object) (mode : value)
    (d : gmap string DataSet) (lat lon dlat dlon : option Q) (title : value)
    (w : world) :
  self !! "mode" = Some mode →
  self !! "datasets" = Some (VDatasets d) →
  size d ≠ (if eq_str mode "scalar" then 1 else 3)%nat →
  let e := DatasetCountMismatchError
             (if eq_str mode "scalar" then "scalar" else "vector") in
  Visualize.populate_frame self lat lon dlat dlon title w = (inl e, w) ∧
  Visualize.animate_from_frames self w = (inl e, w).
Proof.
  intros Hm Hd Hsize e. subst e.
  unfold Visualize.populate_frame, Visualize.animate_from_frames. step.
  rewrite Hm, Hd. unfold len_keys. step.
  destruct (eq_str mode "scalar").
  - replace (Z.of_nat (size d) =? 1)%Z with false
      by (symmetry; apply Z.eqb_neq; lia).
    split; reflexivity.
  - replace (Z.of_nat (size d) =? 3)%Z with false
      by (symmetry; apply Z.eqb_neq; lia).
    split; reflexivity.
Qed.

(** ** Grid indices under rounding

    The bounds, the monotonicity and the saturation of the grid indices do
    not depend on the arithmetic being exact: they hold for every rounding
    that is monotone and leaves the integers up to 2^53 alone, as
    round-to-nearest on binary64 does. *)

Section RoundedArithmetic.

Local Open Scope Q_scope.

Variable rnd : Q → Q.
Hypothesis rnd_mono : ∀ p q : Q, p <= q → rnd p <= rnd q.
Hypothesis rnd_exact : ∀ z : Z, (Z.abs z <= 2 ^ 53)%Z → rnd (inject_Z z) == inject_Z z.

Lemma rnd_proper (p q : Q) : p == q → rnd p == rnd q.
Proof.
  intros E. apply Qle_antisym; apply rnd_mono; rewrite E; apply Qle_refl.
Qed.

Lemma rnd_between (lo hi : Z) (q : Q) :
  (Z.abs lo <= 2 ^ 53)%Z → (Z.abs hi <= 2 ^ 53)%Z →
  inject_Z lo <= q → q <= inject_Z hi →
  inject_Z lo <= rnd q ∧ rnd q <= inject_Z hi.
Proof.
  intros Hlo Hhi H1 H2. split.
  - rewrite <- (rnd_exact lo Hlo). now apply rnd_mono.
  - rewrite <- (rnd_exact hi Hhi). now apply rnd_mono.
Qed.

(** X27: under such a rounding the row index of a latitude in [-90, 90]
    lies in [0, 720] and the column index of a longitude in [-180, 180]
    in [0, 1440]. *)
Lemma rounded_index_bounds (lat lon : Q) :
  -90 <= lat → lat <= 90 → -180 <= lon → lon <= 180 →
  (0 <= to_lat_index_rnd rnd lat <= 180 * resolution_factor)%Z ∧
  (0 <= to_lon_index_rnd rnd lon <= 360 * resolution_factor)%Z.
Proof.
  intros Hlat1 Hlat2 Hlon1 Hlon2.
  unfold to_lat_index_rnd, to_lon_index_rnd.
  destruct (rnd_between 0 180 (90 - lat)) as [Ha1 Ha2];
    [lia | lia | unfold inject_Z; lra | unfold inject_Z; lra |].
  destruct (rnd_between 0 360 (lon + 180)) as [Ho1 Ho2];
    [lia | lia | unfold inject_Z; lra | unfold inject_Z; lra |].
  destruct (rnd_between 0 720 (rnd (90 - lat) * 4)) as [Hb1 Hb2];
    [lia | lia | unfold inject_Z in *; lra | unfold inject_Z in *; lra |].
  destruct (rnd_between 0 1440 (rnd (lon + 180) * 4)) as [Hp1 Hp2];
    [lia | lia | unfold inject_Z in *; lra | unfold inject_Z in *; lra |].
  change (180 * resolution_factor)%Z with 720%Z.
  change (360 * resolution_factor)%Z with 1440%Z.
  rewrite <- (int_inject_Z 0), <- (int_inject_Z 720), <- (int_inject_Z 1440).
  repeat split; now apply int_mono.
Qed.

(** X28: under such a rounding the row index does not increase with the
    latitude. *)
Lemma rounded_to_lat_index_antitone (lat1 lat2 : Q) :
  lat1 <= lat2 → (to_lat_index_rnd rnd lat2 <= to_lat_index_rnd rnd lat1)%Z.
Proof.
  intros H. unfold to_lat_index_rnd.
  apply int_mono, rnd_mono.
  assert (rnd (90 - lat2) <= rnd (90 - lat1)) by (apply rnd_mono; lra). lra.
Qed.

Lemma rounded_to_lon_index_monotone (lon1 lon2 : Q) :
  lon1 <= lon2 → (to_lon_index_rnd rnd lon1 <= to_lon_index_rnd rnd lon2)%Z.
Proof.
  intros H. unfold to_lon_index_rnd.
  apply int_mono, rnd_mono.
  assert (rnd (lon1 + 180) <= rnd (lon2 + 180)) by (apply rnd_mono; lra). lra.
Qed.

Lemma rounded_to_lat_index_at (z : Z) (q : Q) :
  (-90 <= z <= 90)%Z → q == inject_Z z →
  to_lat_index_rnd rnd q = ((90 - z) * 4)%Z.
Proof.
  intros Hz E. unfold to_lat_index_rnd.
  rewrite <- (int_inject_Z ((90 - z) * 4)). apply int_proper.
  assert (E1 : rnd (90 - q) == inject_Z (90 - z)).
  { rewrite <- (rnd_exact (90 - z)) by lia. apply rnd_proper.
    rewrite E. unfold Z.sub. rewrite inject_Z_plus, inject_Z_opp. reflexivity. }
  rewrite <- (rnd_exact ((90 - z) * 4)) by lia. apply rnd_proper.
  rewrite E1, inject_Z_mult. reflexivity.
Qed.

Lemma rounded_to_lon_index_at (z : Z) (q : Q) :
  (-180 <= z <= 180)%Z → q == inject_Z z →
  to_lon_index_rnd rnd q = ((z + 180) * 4)%Z.
Proof.
  intros Hz E. unfold to_lon_index_rnd.
  rewrite <- (int_inject_Z ((z + 180) * 4)). apply int_proper.
  assert (E1 : rnd (q + 180) == inject_Z (z + 180)).
  { rewrite <- (rnd_exact (z + 180)) by lia. apply rnd_proper.
    rewrite E, inject_Z_plus. reflexivity. }
  rewrite <- (rnd_exact ((z + 180) * 4)) by lia. apply rnd_proper.
  rewrite E1, inject_Z_mult. reflexivity.
Qed.

(** X29: under such a rounding half-extents that reach past every edge
    of the globe give the rows [0, 720) and the columns [0, 1440). *)
Lemma rounded_get_mask_saturates (lat lon dlat dlon : Q) :
  lat - dlat <= -90 → 90 <= lat + dlat →
  lon - dlon <= -180 → 180 <= lon + dlon →
  get_mask_rnd rnd lat lon dlat dlon = (Py.Slice 0 720, Py.Slice 0 1440).
Proof.
  intros Hs Hn Hw He. unfold get_mask_rnd.
  assert (Rs : rnd (lat - dlat) <= -90).
  { change (-90) with (inject_Z (-90)). rewrite <- (rnd_exact (-90)) by lia.
    now apply rnd_mono. }
  assert (Rn : 90 <= rnd (lat + dlat)).
  { change 90 with (inject_Z 90). rewrite <- (rnd_exact 90) by lia.
    now apply rnd_mono. }
  assert (Rw : rnd (lon - dlon) <= -180).
  { change (-180) with (inject_Z (-180)). rewrite <- (rnd_exact (-180)) by lia.
    now apply rnd_mono. }
  assert (Re : 180 <= rnd (lon + dlon)).
  { change 180 with (inject_Z 180). rewrite <- (rnd_exact 180) by lia.
    now apply rnd_mono. }
  f_equal; f_equal.
  - apply (rounded_to_lat_index_at 90); [lia | now apply min_le_r].
  - apply (rounded_to_lat_index_at (-90)); [lia | now apply max_ge_r].
  - apply (rounded_to_lon_index_at (-180)); [lia | now apply max_ge_r].
  - apply (rounded_to_lon_index_at 180); [lia | now apply min_le_r].
Qed.

End RoundedArithmetic.

(** Exact arithmetic is the rounding that changes nothing. *)
Lemma exact_is_rounded (lat lon dlat dlon : Q) :
  to_lat_index_rnd (fun q => q) lat = to_lat_index lat ∧
  to_lon_index_rnd (fun q => q) lon = to_lon_index lon ∧
  get_mask_rnd (fun q => q) lat lon dlat dlon = get_mask lat lon dlat dlon.
Proof. repeat split. Qed.

Lemma exact_rounding_monotone_exact :
  (∀ p q : Q, (p <= q)%Q → ((fun q => q) p <= (fun q => q) q)%Q) ∧
  (∀ z : Z, (Z.abs z <= 2 ^ 53)%Z → ((fun q => q) (inject_Z z) == inject_Z z)%Q).
Proof. split; [intros p q H; exact H | intros z _; reflexivity]. Qed.

(** ** The cell of a latitude *)

Section Cells.

Local Open Scope Q_scope.

Variable rnd : Q → Q.
Hypothesis rnd_mono : ∀ p q : Q, p <= q → rnd p <= rnd q.

(** Where the two operations lose nothing, the index is the exact one. *)
Lemma to_lat_index_rnd_exact (lat : Q) :
  exact_at rnd lat → to_lat_index_rnd rnd lat = to_lat_index lat.
Proof.
  intros [H1 H2]. unfold to_lat_index_rnd, to_lat_index. apply int_proper.
  transitivity (rnd ((90 - lat) * 4)); [| exact H2].
  apply (rnd_proper rnd rnd_mono). now rewrite H1.
Qed.

(** C8: for latitudes [lat1 < lat2] in [-90, 90] the row index of [lat1]
    is greater than that of [lat2] or equal to it: the index does not
    increase with the latitude, whether the arithmetic is exact (Python
    [int]s, the identity for [rnd]) or rounds as floats do.  Where the
    arithmetic loses nothing at the two latitudes, the indices are equal
    exactly when both latitudes lie in one cell of the grid. *)
Theorem to_lat_index_antitone (lat1 lat2 : Q) :
  -90 <= lat1 → lat1 < lat2 → lat2 <= 90 →
  (to_lat_index_rnd rnd lat2 <= to_lat_index_rnd rnd lat1)%Z ∧
  (exact_at rnd lat1 → exact_at rnd lat2 →
   (to_lat_index_rnd rnd lat1 = to_lat_index_rnd rnd lat2 ↔
    ∃ k, in_cell k lat1 = true ∧ in_cell k lat2 = true)).
Proof.
  intros H1 H12 H2. split.
  - unfold to_lat_index_rnd. apply int_mono, rnd_mono.
    assert (rnd (90 - lat2) <= rnd (90 - lat1)) by (apply rnd_mono; lra). lra.
  - intros E1 E2. rewrite !to_lat_index_rnd_exact by assumption. split.
    + intros E. exists (to_lat_index lat1). split.
      * apply to_lat_index_cell; [lra | reflexivity].
      * apply to_lat_index_cell; [lra | now symmetry].
    + intros (k & Hk1 & Hk2).
      apply to_lat_index_cell in Hk1; [| lra].
      apply to_lat_index_cell in Hk2; [| lra]. congruence.
Qed.

(** X2: on the points of the grid the indices are exact, on floats too:
    under a monotone rounding that leaves the quarters up to [2^53 / 4]
    alone, as binary64 does, the latitude of row [k] has index [k] and the
    longitude of column [k] has index [k], for every [k] up to [2^50] in
    absolute value. *)
Theorem index_of_grid_point (k : Z) :
  (∀ z : Z, (Z.abs z <= 2 ^ 53)%Z → rnd (inject_Z z / 4) == inject_Z z / 4) →
  (Z.abs k <= 2 ^ 50)%Z →
  to_lat_index_rnd rnd (90 - inject_Z k / 4) = k ∧
  to_lon_index_rnd rnd (inject_Z k / 4 - 180) = k.
Proof.
  intros Hq Hk.
  assert (Hk4 : rnd (inject_Z k / 4 * 4) == inject_Z k).
  { transitivity (rnd (inject_Z (4 * k) / 4)).
    - apply (rnd_proper rnd rnd_mono). rewrite inject_Z_mult.
      unfold Qdiv. change (/ 4) with (1 # 4). change (inject_Z 4) with 4. ring.
    - rewrite Hq by lia. rewrite inject_Z_mult.
      unfold Qdiv. change (/ 4) with (1 # 4). change (inject_Z 4) with 4. ring. }
  unfold to_lat_index_rnd, to_lon_index_rnd. split.
  - transitivity (Py.int (inject_Z k)); [| apply int_inject_Z]. apply int_proper.
    transitivity (rnd (inject_Z k / 4 * 4)); [| exact Hk4].
    apply (rnd_proper rnd rnd_mono).
    assert (E : rnd (90 - (90 - inject_Z k / 4)) == inject_Z k / 4).
    { transitivity (rnd (inject_Z k / 4)); [| apply Hq; lia].
      apply (rnd_proper rnd rnd_mono). ring. }
    now rewrite E.
  - transitivity (Py.int (inject_Z k)); [| apply int_inject_Z]. apply int_proper.
    transitivity (rnd (inject_Z k / 4 * 4)); [| exact Hk4].
    apply (rnd_proper rnd rnd_mono).
    assert (E : rnd (inject_Z k / 4 - 180 + 180) == inject_Z k / 4).
    { transitivity (rnd (inject_Z k / 4)); [| apply Hq; lia].
      apply (rnd_proper rnd rnd_mono). ring. }
    now rewrite E.
Qed.

End Cells.

Lemma to_lat_index_antitone_witness :
  (to_lat_index_rnd (fun q => q) 50 <= to_lat_index_rnd (fun q => q) 30)%Z ∧
  (exact_at (fun q => q) 30 → exact_at (fun q => q) 50 →
   (to_lat_index_rnd (fun q => q) 30 = to_lat_index_rnd (fun q => q) 50 ↔
    ∃ k, in_cell k 30 = true ∧ in_cell k 50 = true)).
Proof.
  apply (to_lat_index_antitone (fun q => q)).
  - intros p q H. exact H.
  - unfold Qle; simpl; lia.
  - unfold Qlt; simpl; lia.
  - unfold Qle; simpl; lia.
Defined.

Lemma index_of_grid_point_witness :
  to_lat_index_rnd (fun q => q) (90 - inject_Z 160 / 4) = 160%Z ∧
  to_lon_index_rnd (fun q => q) (inject_Z 160 / 4 - 180) = 160%Z.
Proof.
  apply (index_of_grid_point (fun q => q)).
  - intros p q H. exact H.
  - intros z _. reflexivity.
  - simpl. lia.
Defined.

(** ** The code on small inputs *)

Example to_lat_index_poles :
  to_lat_index 90 = 0%Z ∧ to_lat_index 0 = 360%Z ∧ to_lat_index (-90) = 720%Z.
Proof. repeat split. Qed.

Example to_lon_index_seam :
  to_lon_index (-180) = 0%Z ∧ to_lon_index 0 = 720%Z ∧ to_lon_index 180 = 1440%Z.
Proof. repeat split. Qed.

Example int_truncates : Py.int (-1 # 2) = 0%Z ∧ Py.int (7 # 2) = 3%Z.
Proof. split; reflexivity. Qed.

Example getslice_negative_stop : Py.getslice [1; 2; 3; 4; 5]%Z (Py.Slice 1 (-1)) = [2; 3; 4]%Z.
Proof. reflexivity. Qed.

Example getMesh_whole_grid :
  getMesh u100 0 None None None None =
    inr (latitude grid0, longitude grid0, Array2 2 [[1; 2]; [3; 4]; [5; 6]]%Q).
Proof. vm_compute. reflexivity. Qed.

Example getMesh_region :
  getMesh u100 1 (Some 90%Q) (Some (-180)%Q) (Some (1 # 4)) (Some (1 # 4)) =
    inr ([90%Q], [(-180)%Q], Array2 1 [[7%Q]]).
Proof. vm_compute. reflexivity. Qed.

Example getMesh_partial_region :
  getMesh u100 0 (Some 90%Q) None None (Some (1 # 4)) = inl AmbiguousRegionError.
Proof. reflexivity. Qed.

Example init_rejects_mode :
  (Visualize.__init__ "test" [("u100", "/data/u.grib")] "/out" (VStr "tensor")
     (VOpaque "PlateCarree") None world0).1 = inl UnsupportedModeError.
Proof. vm_compute. reflexivity. Qed.

(** * Further properties of the code *)

(** [lra] and [ring] after turning the division by 4 into a product. *)
Ltac quarters := unfold Qdiv in *; change (/ 4)%Q with (1 # 4)%Q in *.

(** ** Grid indices, continued *)

Section GridEdges.

Local Open Scope Q_scope.

Lemma max_spec (a b : Q) :
  a <= Py.max a b ∧ b <= Py.max a b ∧ (Py.max a b = a ∨ Py.max a b = b).
Proof.
  unfold Py.max. destruct (Qle_bool b a) eqn:E.
  - apply Qle_bool_iff in E. repeat split; [apply Qle_refl | exact E | now left].
  - assert (¬ b <= a) by (rewrite <- Qle_bool_iff; congruence).
    repeat split; [apply Qlt_le_weak, Qnot_le_lt; assumption | apply Qle_refl | now right].
Qed.

Lemma min_spec (a b : Q) :
  Py.min a b <= a ∧ Py.min a b <= b ∧ (Py.min a b = a ∨ Py.min a b = b).
Proof.
  unfold Py.min. destruct (Qle_bool a b) eqn:E.
  - apply Qle_bool_iff in E. repeat split; [apply Qle_refl | exact E | now left].
  - assert (¬ a <= b) by (rewrite <- Qle_bool_iff; congruence).
    repeat split; [apply Qlt_le_weak, Qnot_le_lt; assumption | apply Qle_refl | now right].
Qed.



Lemma get_mask_one_sided (lat lon dlat dlon : Q) :
  (0 <= Py.start (get_mask lat lon dlat dlon).1)%Z ∧
  (Py.stop (get_mask lat lon dlat dlon).1 <= 720)%Z ∧
  (0 <= Py.start (get_mask lat lon dlat dlon).2)%Z ∧
  (Py.stop (get_mask lat lon dlat dlon).2 <= 1440)%Z.
Proof.
  unfold get_mask. cbn [fst snd Py.start Py.stop].
  destruct (min_spec (lat + dlat) 90) as (_ & Hn & _).
  destruct (max_spec (lat - dlat) (-90)) as (_ & Hs & _).
  destruct (max_spec (lon - dlon) (-180)) as (_ & Hw & _).
  destruct (min_spec (lon + dlon) 180) as (_ & He & _).
  unfold to_lat_index, to_lon_index.
  rewrite <- (int_inject_Z 0), <- (int_inject_Z 720), <- (int_inject_Z 1440).
  repeat split; apply int_mono; unfold inject_Z; lra.
Qed.

(** X3: whatever the arguments, [get_mask] starts its rows and columns at
    0 or later and stops its rows at 720 and its columns at 1440 or
    earlier: the clamp bounds the start from below and the stop from
    above. *)
Theorem get_mask_clamped (lat lon dlat dlon : Q) :
  (0 <= Py.start (get_mask lat lon dlat dlon).1)%Z ∧
  (Py.stop (get_mask lat lon dlat dlon).1 <= 720)%Z ∧
  (0 <= Py.start (get_mask lat lon dlat dlon).2)%Z ∧
  (Py.stop (get_mask lat lon dlat dlon).2 <= 1440)%Z.
Proof. apply get_mask_one_sided. Qed.

(** X4: for a centre on the globe and half-extents that are not negative,
    both ranges are in order and inside the grid:
    [0 <= start <= stop <= 720] for the rows and
    [0 <= start <= stop <= 1440] for the columns; at the antimeridian the
    range is cut, not wrapped. *)
Theorem get_mask_ordered (lat lon dlat dlon : Q) :
  -90 <= lat → lat <= 90 → -180 <= lon → lon <= 180 → 0 <= dlat → 0 <= dlon →
  (0 <= Py.start (get_mask lat lon dlat dlon).1 <=
     Py.stop (get_mask lat lon dlat dlon).1)%Z ∧
  (Py.stop (get_mask lat lon dlat dlon).1 <= 720)%Z ∧
  (0 <= Py.start (get_mask lat lon dlat dlon).2 <=
     Py.stop (get_mask lat lon dlat dlon).2)%Z ∧
  (Py.stop (get_mask lat lon dlat dlon).2 <= 1440)%Z.
Proof.
  intros Hlat1 Hlat2 Hlon1 Hlon2 Hdlat Hdlon.
  destruct (get_mask_one_sided lat lon dlat dlon) as (H1 & H2 & H3 & H4).
  repeat split; try assumption.
  - unfold get_mask. cbn [fst snd Py.start Py.stop].
    destruct (min_spec (lat + dlat) 90) as (_ & _ & [-> | ->]);
    destruct (max_spec (lat - dlat) (-90)) as (_ & _ & [-> | ->]);
    apply int_mono; lra.
  - unfold get_mask. cbn [fst snd Py.start Py.stop].
    destruct (min_spec (lon + dlon) 180) as (_ & _ & [-> | ->]);
    destruct (max_spec (lon - dlon) (-180)) as (_ & _ & [-> | ->]);
    apply int_mono; lra.
Qed.

Lemma get_mask_ordered_witness :
  (0 <= Py.start (get_mask 0 179 1 5).1 <= Py.stop (get_mask 0 179 1 5).1)%Z ∧
  (Py.stop (get_mask 0 179 1 5).1 <= 720)%Z ∧
  (0 <= Py.start (get_mask 0 179 1 5).2 <= Py.stop (get_mask 0 179 1 5).2)%Z ∧
  (Py.stop (get_mask 0 179 1 5).2 <= 1440)%Z.
Proof.
  apply (get_mask_ordered 0 179 1 5); unfold Qle; simpl; lia.
Defined.

(** X5: the clamp is one-sided.  A region that lies a quarter degree or
    more beyond the north pole gets the row range [slice(0, stop)] with a
    negative [stop], which Python counts from the end of the array. *)
Theorem get_mask_beyond_north_pole (lat lon dlat dlon : Q) :
  0 <= dlat → 90 + 1 / 4 <= lat - dlat →
  Py.start (get_mask lat lon dlat dlon).1 = 0%Z ∧
  (Py.stop (get_mask lat lon dlat dlon).1 <= -1)%Z.
Proof.
  intros Hd Hn. unfold get_mask. cbn [fst snd Py.start Py.stop]. quarters. split.
  - change 0%Z with (to_lat_index 90). apply to_lat_index_proper, min_le_r. lra.
  - destruct (max_spec (lat - dlat) (-90)) as (Hge & _ & _).
    unfold to_lat_index. rewrite <- (int_inject_Z (-1)).
    apply int_mono. unfold inject_Z. lra.
Qed.

Lemma get_mask_beyond_north_pole_witness :
  Py.start (get_mask 100 0 1 1).1 = 0%Z ∧ (Py.stop (get_mask 100 0 1 1).1 <= -1)%Z.
Proof.
  apply (get_mask_beyond_north_pole 100 0 1 1); unfold Qle; simpl; lia.
Defined.

End GridEdges.

(** ** Slices, continued *)

Section SliceElements.

Context {A : Type}.

Lemma getslice_empty (l : list A) (s : Py.slice) :
  Py.start s = Py.stop s → Py.getslice l s = [].
Proof.
  intros E. unfold Py.getslice. rewrite E, Nat.sub_diag. reflexivity.
Qed.

(** With bounds that are not negative, an element of [l[s]] sits in [l]
    at a position from [start] up to, not including, [stop]. *)
Lemma getslice_position (l : list A) (s : Py.slice) (v : A) :
  (0 <= Py.start s)%Z → (0 <= Py.stop s)%Z → v ∈ Py.getslice l s →
  ∃ k : nat, l !! k = Some v ∧ (Py.start s <= Z.of_nat k < Py.stop s)%Z.
Proof.
  intros Hlo Hhi Hv. unfold Py.getslice in Hv.
  apply list_elem_of_lookup in Hv as [i Hi].
  apply lookup_take_Some in Hi as [Hi Hlt].
  rewrite lookup_drop in Hi.
  exists (Py.clip (Py.start s) (length l) + i)%nat. split; [exact Hi |].
  apply lookup_lt_Some in Hi.
  unfold Py.clip in *.
  destruct (Py.start s <? 0)%Z eqn:E1; [lia |].
  destruct (Py.stop s <? 0)%Z eqn:E2; [lia |]. lia.
Qed.

Lemma getslice_prefix_length (l : list A) (n : Z) :
  (0 <= n)%Z → length (Py.getslice l (Py.Slice 0 n)) = Nat.min (Z.to_nat n) (length l).
Proof.
  intros Hn. rewrite length_getslice. unfold Py.slice_len, Py.clip.
  cbn [Py.start Py.stop]. destruct (n <? 0)%Z eqn:E; [lia |].
  change (0 <? 0)%Z with false. cbv iota. lia.
Qed.

Lemma getitem_None (l : list A) (i : Z) :
  Py.getitem l i = None ↔
  ¬ (- Z.of_nat (length l) <= i < Z.of_nat (length l))%Z.
Proof.
  unfold Py.getitem.
  destruct (i <? 0)%Z eqn:E;
    destruct ((0 <=? _)%Z && (_ <? Z.of_nat (length l))%Z) eqn:B.
  - apply andb_true_iff in B as [B1 B2]. split; [| lia].
    intros H. apply lookup_ge_None in H. lia.
  - apply andb_false_iff in B. split; [| reflexivity]. intros _. lia.
  - apply andb_true_iff in B as [B1 B2]. split; [| lia].
    intros H. apply lookup_ge_None in H. lia.
  - apply andb_false_iff in B. split; [| reflexivity]. intros _. lia.
Qed.

Lemma getitem_negative (l : list A) (i : Z) :
  (- Z.of_nat (length l) <= i < 0)%Z →
  Py.getitem l i = l !! Z.to_nat (Z.of_nat (length l) + i).
Proof.
  intros H. unfold Py.getitem.
  replace (i <? 0)%Z with true by (symmetry; apply Z.ltb_lt; lia).
  replace ((0 <=? i + Z.of_nat (length l))%Z && (i + Z.of_nat (length l) <? Z.of_nat (length l))%Z)
    with true by (symmetry; apply andb_true_iff; lia).
  f_equal. lia.
Qed.

End SliceElements.

(** ** DataSet.getMesh, continued *)

Section MeshContents.

Variable self : DataSet.
Variable time_step : Z.

Lemma getMesh_whole_inv (latmesh lonmesh : list Q) (fieldmesh : array2) :
  getMesh self time_step None None None None = inr (latmesh, lonmesh, fieldmesh) ↔
  (time_step < time_steps self)%Z ∧
  latmesh = latitude (array self) ∧ lonmesh = longitude (array self) ∧
  ∃ field, data_vars (array self) !! data_var self = Some field ∧
           Py.getitem field time_step = Some fieldmesh.
Proof.
  unfold getMesh, Dataset_getitem, field_getitem, or_raise.
  destruct (Z.le_gt_cases (time_steps self) time_step) as [Hge | Hlt].
  - replace (time_step >=? time_steps self)%Z with true
      by (symmetry; rewrite Z.geb_leb; now apply Z.leb_le).
    split; [discriminate | lia].
  - rewrite getMesh_in_range by exact Hlt.
    destruct (data_vars _ !! _) as [field |]; cbn.
    + destruct (Py.getitem field time_step) as [layer |] eqn:El; cbn.
      * split.
        -- intros [= <- <- <-]. repeat (split; [done |]). exists field. done.
        -- intros (_ & -> & -> & f & [= <-] & Hl).
           rewrite El in Hl. injection Hl as ->. reflexivity.
      * split; [discriminate |].
        intros (_ & _ & _ & f & [= <-] & Hl). congruence.
    + split; [discriminate |]. intros (_ & _ & _ & f & ? & _). discriminate.
Qed.

Lemma getMesh_region_inv (lat lon dlat dlon : Q)
    (latmesh lonmesh : list Q) (fieldmesh : array2) :
  getMesh self time_step (Some lat) (Some lon) (Some dlat) (Some dlon) =
    inr (latmesh, lonmesh, fieldmesh) ↔
  (time_step < time_steps self)%Z ∧
  latmesh = Py.getslice (latitude (array self)) (get_mask lat lon dlat dlon).1 ∧
  lonmesh = Py.getslice (longitude (array self)) (get_mask lat lon dlat dlon).2 ∧
  ∃ field layer, data_vars (array self) !! data_var self = Some field ∧
    Py.getitem field time_step = Some layer ∧
    fieldmesh = array2_getslice layer (get_mask lat lon dlat dlon).1
                  (get_mask lat lon dlat dlon).2.
Proof.
  unfold getMesh, Dataset_getitem, field_getitem, or_raise.
  destruct (Z.le_gt_cases (time_steps self) time_step) as [Hge | Hlt].
  - replace (time_step >=? time_steps self)%Z with true
      by (symmetry; rewrite Z.geb_leb; now apply Z.leb_le).
    split; [discriminate | lia].
  - rewrite getMesh_in_range by exact Hlt.
    destruct (get_mask lat lon dlat dlon) as [latmask lonmask]. cbn [fst snd].
    destruct (data_vars _ !! _) as [field |]; cbn -[array2_getslice Py.getslice].
    + destruct (Py.getitem field time_step) as [layer |] eqn:El;
        cbn -[array2_getslice Py.getslice].
      * split.
        -- intros [= <- <- <-]. repeat (split; [done |]). exists field, layer. done.
        -- intros (_ & -> & -> & f & l & [= <-] & Hl & ->).
           rewrite El in Hl. injection Hl as ->. reflexivity.
      * split; [discriminate |].
        intros (_ & _ & _ & f & l & [= <-] & Hl & _). congruence.
    + split; [discriminate |]. intros (_ & _ & _ & f & l & ? & _). discriminate.
Qed.

End MeshContents.

Section MeshOutcomes.

Variable self : DataSet.
Variable time_step : Z.
Variables lat lon dlat dlon : option Q.

(** The five outcomes of [getMesh], in the order the code reaches them. *)
Lemma getMesh_cases :
  let r := getMesh self time_step lat lon dlat dlon in
  let whole := supplied lat lon dlat dlon = 0%nat ∨ supplied lat lon dlat dlon = 4%nat in
  ((time_steps self <= time_step)%Z ∧ r = inl OutOfRangeError) ∨
  ((time_step < time_steps self)%Z ∧ (1 ≤ supplied lat lon dlat dlon ≤ 3)%nat ∧
     r = inl AmbiguousRegionError) ∨
  ((time_step < time_steps self)%Z ∧ whole ∧
     data_vars (array self) !! data_var self = None ∧
     r = inl (KeyError (data_var self))) ∨
  ((time_step < time_steps self)%Z ∧ whole ∧
     (∃ field, data_vars (array self) !! data_var self = Some field ∧
               Py.getitem field time_step = None) ∧
     r = inl IndexError) ∨
  ((time_step < time_steps self)%Z ∧ whole ∧
     ∃ field layer m, data_vars (array self) !! data_var self = Some field ∧
                      Py.getitem field time_step = Some layer ∧ r = inr m).
Proof.
  intros r whole. subst r whole.
  destruct (Z.le_gt_cases (time_steps self) time_step) as [Hge | Hlt].
  { left. split; [exact Hge |]. now apply getMesh_out_of_range. }
  right. unfold getMesh. rewrite getMesh_in_range by exact Hlt.
  unfold Dataset_getitem, field_getitem, or_raise.
  destruct lat, lon, dlat, dlon; cbn -[get_mask array2_getslice Py.getslice];
    try (left; split; [exact Hlt |]; split; [lia | reflexivity]).
  - right. destruct (get_mask _ _ _ _) as [latmask lonmask].
    destruct (data_vars _ !! _) as [field |]; cbn -[array2_getslice Py.getslice].
    + destruct (Py.getitem field time_step) as [layer |] eqn:El;
        cbn -[array2_getslice Py.getslice].
      * right. right. repeat (split; [done || (now right) |]).
        eexists field, layer, _. done.
      * right. left. repeat (split; [done || (now right) |]).
        split; [| reflexivity]. exists field. done.
    + left. repeat (split; [done || (now right) |]). reflexivity.
  - right.
    destruct (data_vars _ !! _) as [field |]; cbn.
    + destruct (Py.getitem field time_step) as [layer |] eqn:El; cbn.
      * right. right. repeat (split; [done || (now left) |]).
        eexists field, layer, _. done.
      * right. left. repeat (split; [done || (now left) |]).
        split; [| reflexivity]. exists field. done.
    + left. repeat (split; [done || (now left) |]). reflexivity.
Qed.

End MeshOutcomes.

Lemma int_floor_bounds (q : Q) :
  (0 <= q)%Q →
  (inject_Z (Py.int q) <= q)%Q ∧ (q < inject_Z (Py.int q) + 1)%Q.
Proof.
  intros H. rewrite int_nonneg by exact H. split.
  - apply Qfloor_le.
  - pose proof (Qlt_floor q) as Hq. rewrite inject_Z_plus in Hq. exact Hq.
Qed.

Lemma get_mask_global (lat lon dlat dlon : Q) :
  (lat - dlat <= -90)%Q → (90 <= lat + dlat)%Q →
  (lon - dlon <= -180)%Q → (180 <= lon + dlon)%Q →
  get_mask lat lon dlat dlon = (Py.Slice 0 720, Py.Slice 0 1440).
Proof.
  intros Hs Hn Hw He.
  change (Py.Slice 0 720, Py.Slice 0 1440) with
    (Py.Slice (to_lat_index 90) (to_lat_index (-90)),
     Py.Slice (to_lon_index (-180)) (to_lon_index 180)).
  unfold get_mask. f_equal; f_equal.
  - apply to_lat_index_proper, min_le_r, Hn.
  - apply to_lat_index_proper, max_ge_r, Hs.
  - apply to_lon_index_proper, max_ge_r, Hw.
  - apply to_lon_index_proper, min_le_r, He.
Qed.

(** X6: for a [data_var] that names a data variable, a query without
    region returns exactly when the time step is below the declared count
    and selects a layer of the variable's field; it then returns the two
    coordinate arrays whole and that layer. *)
Theorem getMesh_whole_grid_iff (self : DataSet) (time_step : Z) (field : list array2)
    (latmesh lonmesh : list Q) (fieldmesh : array2) :
  data_vars (array self) !! data_var self = Some field →
  getMesh self time_step None None None None = inr (latmesh, lonmesh, fieldmesh) ↔
  (time_step < time_steps self)%Z ∧
  latmesh = latitude (array self) ∧ lonmesh = longitude (array self) ∧
  Py.getitem field time_step = Some fieldmesh.
Proof.
  intros Hf. rewrite getMesh_whole_inv. split.
  - intros (Ht & Hla & Hlo & f & Hf' & Hl). rewrite Hf in Hf'. injection Hf' as <-. done.
  - intros (Ht & Hla & Hlo & Hl). repeat (split; [done |]). exists field. done.
Qed.

Lemma getMesh_whole_grid_iff_witness :
  getMesh u100 0 None None None None =
    inr (latitude grid0, longitude grid0, Array2 2 [[1; 2]; [3; 4]; [5; 6]]%Q) ↔
  (0 < time_steps u100)%Z ∧
  latitude grid0 = latitude (array u100) ∧ longitude grid0 = longitude (array u100) ∧
  Py.getitem [ Array2 2 [[1; 2]; [3; 4]; [5; 6]]%Q;
               Array2 2 [[7; 8]; [9; 10]; [11; 12]]%Q ] 0 =
    Some (Array2 2 [[1; 2]; [3; 4]; [5; 6]]%Q).
Proof.
  apply (getMesh_whole_grid_iff u100 0).
  vm_compute. reflexivity.
Defined.

(** X7: for a [data_var] that names a data variable and region arguments
    that are Python [int]s, a region query is the whole-grid query cut by
    the masks of [get_mask]: where the query without region returns, the
    query with the region returns the slices of its three arrays. *)
Theorem getMesh_region_of_whole (self : DataSet) (time_step : Z)
    (lat lon dlat dlon : Z) (latmesh lonmesh : list Q) (fieldmesh : array2) :
  is_Some (data_vars (array self) !! data_var self) →
  getMesh self time_step None None None None = inr (latmesh, lonmesh, fieldmesh) →
  getMesh self time_step (Some (inject_Z lat)) (Some (inject_Z lon))
    (Some (inject_Z dlat)) (Some (inject_Z dlon)) =
    inr (Py.getslice latmesh
           (get_mask (inject_Z lat) (inject_Z lon) (inject_Z dlat) (inject_Z dlon)).1,
         Py.getslice lonmesh
           (get_mask (inject_Z lat) (inject_Z lon) (inject_Z dlat) (inject_Z dlon)).2,
         array2_getslice fieldmesh
           (get_mask (inject_Z lat) (inject_Z lon) (inject_Z dlat) (inject_Z dlon)).1
           (get_mask (inject_Z lat) (inject_Z lon) (inject_Z dlat) (inject_Z dlon)).2).
Proof.
  intros _ H. apply getMesh_whole_inv in H as (Ht & -> & -> & field & Hf & Hl).
  apply getMesh_region_inv. repeat (split; [done |]).
  exists field, fieldmesh. done.
Qed.

Lemma getMesh_region_of_whole_witness :
  getMesh u100 1 (Some (inject_Z 90)) (Some (inject_Z (-180)))
    (Some (inject_Z 1)) (Some (inject_Z 1)) =
    inr (Py.getslice (latitude grid0)
           (get_mask (inject_Z 90) (inject_Z (-180)) (inject_Z 1) (inject_Z 1)).1,
         Py.getslice (longitude grid0)
           (get_mask (inject_Z 90) (inject_Z (-180)) (inject_Z 1) (inject_Z 1)).2,
         array2_getslice (Array2 2 [[7; 8]; [9; 10]; [11; 12]]%Q)
           (get_mask (inject_Z 90) (inject_Z (-180)) (inject_Z 1) (inject_Z 1)).1
           (get_mask (inject_Z 90) (inject_Z (-180)) (inject_Z 1) (inject_Z 1)).2).
Proof.
  apply (getMesh_region_of_whole u100 1 90 (-180) 1 1).
  - eexists. vm_compute. reflexivity.
  - vm_compute. reflexivity.
Defined.

(** X8: half-extents of zero around a point of the globe select nothing:
    a query that returns gives no latitude, no longitude and no row of the
    field, and raises no error for it. *)
Theorem getMesh_zero_extent_empty (self : DataSet) (time_step : Z) (lat lon : Q)
    (latmesh lonmesh : list Q) (fieldmesh : array2) :
  (-90 <= lat)%Q → (lat <= 90)%Q → (-180 <= lon)%Q → (lon <= 180)%Q →
  getMesh self time_step (Some lat) (Some lon) (Some 0%Q) (Some 0%Q) =
    inr (latmesh, lonmesh, fieldmesh) →
  latmesh = [] ∧ lonmesh = [] ∧ rows fieldmesh = [].
Proof.
  intros Hlat1 Hlat2 Hlon1 Hlon2 H.
  apply getMesh_region_inv in H as (_ & -> & -> & field & layer & _ & _ & ->).
  assert (E1 : Py.start (get_mask lat lon 0 0).1 = Py.stop (get_mask lat lon 0 0).1).
  { unfold get_mask. cbn [fst Py.start Py.stop]. apply to_lat_index_proper.
    destruct (min_spec (lat + 0) 90) as (Ha & Hb & [E | E]); rewrite E in *;
    destruct (max_spec (lat - 0) (-90)) as (Hc & Hd & [E' | E']); rewrite E' in *;
      lra. }
  assert (E2 : Py.start (get_mask lat lon 0 0).2 = Py.stop (get_mask lat lon 0 0).2).
  { unfold get_mask. cbn [snd Py.start Py.stop]. apply to_lon_index_proper.
    destruct (min_spec (lon + 0) 180) as (Ha & Hb & [E | E]); rewrite E in *;
    destruct (max_spec (lon - 0) (-180)) as (Hc & Hd & [E' | E']); rewrite E' in *;
      lra. }
  unfold array2_getslice. cbn [rows].
  rewrite !(getslice_empty _ _ E1), (getslice_empty _ _ E2). done.
Qed.

Lemma getMesh_zero_extent_empty_witness :
  @nil Q = [] ∧ @nil Q = [] ∧ rows (Array2 0 []) = [].
Proof.
  apply (getMesh_zero_extent_empty u100 0 90 (-180) [] [] (Array2 0 [])).
  - unfold Qle; simpl; lia.
  - unfold Qle; simpl; lia.
  - unfold Qle; simpl; lia.
  - unfold Qle; simpl; lia.
  - vm_compute. reflexivity.
Defined.

Lemma grid0_lat_grid : lat_grid (latitude grid0).
Proof.
  intros k v H. destruct k as [| [| [| k]]]; cbn in H; [| | | discriminate];
    injection H as <-; reflexivity.
Defined.

Lemma grid0_lon_grid : lon_grid (longitude grid0).
Proof.
  intros k v H. destruct k as [| [| k]]; cbn in H; [| | discriminate];
    injection H as <-; reflexivity.
Defined.

(** On the quarter-degree grid, in exact arithmetic: the window of a
    region query. *)
Lemma getMesh_region_window_exact (self : DataSet) (time_step : Z)
    (lat lon dlat dlon : Q) (latmesh lonmesh : list Q) (fieldmesh : array2) :
  lat_grid (latitude (array self)) → lon_grid (longitude (array self)) →
  (lat - dlat <= 90)%Q → (-180 <= lon + dlon)%Q →
  getMesh self time_step (Some lat) (Some lon) (Some dlat) (Some dlon) =
    inr (latmesh, lonmesh, fieldmesh) →
  (∀ v, v ∈ latmesh →
     (Py.max (lat - dlat) (-90) + (1 # 4) <= v)%Q ∧
     (v < Py.min (lat + dlat) 90 + (1 # 4))%Q) ∧
  (∀ v, v ∈ lonmesh →
     (Py.max (lon - dlon) (-180) - (1 # 4) < v)%Q ∧
     (v <= Py.min (lon + dlon) 180 - (1 # 4))%Q).
Proof.
  intros Glat Glon Hs He H.
  apply getMesh_region_inv in H as (_ & -> & -> & _).
  destruct (get_mask_one_sided lat lon dlat dlon) as (Hr0 & _ & Hc0 & _).
  unfold get_mask in *. cbn [fst snd Py.start Py.stop] in *.
  destruct (min_spec (lat + dlat) 90) as (_ & Hn & _).
  destruct (max_spec (lat - dlat) (-90)) as (_ & _ & Hmax).
  destruct (max_spec (lon - dlon) (-180)) as (_ & Hw & _).
  destruct (min_spec (lon + dlon) 180) as (_ & _ & Hmin).
  set (lat_min := Py.max (lat - dlat) (-90)) in *.
  set (lat_max := Py.min (lat + dlat) 90) in *.
  set (lon_min := Py.max (lon - dlon) (-180)) in *.
  set (lon_max := Py.min (lon + dlon) 180) in *.
  assert (Hlat_min : (lat_min <= 90)%Q) by (destruct Hmax as [-> | ->]; lra).
  assert (Hlon_max : (-180 <= lon_max)%Q) by (destruct Hmin as [-> | ->]; lra).
  unfold to_lat_index, to_lon_index in *.
  destruct (int_floor_bounds ((90 - lat_max) * 4)) as [Ha1 Ha2]; [lra |].
  destruct (int_floor_bounds ((90 - lat_min) * 4)) as [Hb1 Hb2]; [lra |].
  destruct (int_floor_bounds ((lon_min + 180) * 4)) as [Hc1 Hc2]; [lra |].
  destruct (int_floor_bounds ((lon_max + 180) * 4)) as [Hd1 Hd2]; [lra |].
  split; intros v Hv.
  - apply getslice_position in Hv as (k & Hk & Hlo & Hhi); cbn [Py.start Py.stop] in *.
    + apply Glat in Hk. quarters.
      rewrite Zle_Qle in Hlo. assert (Hhi' : (Z.of_nat k + 1 <= Py.int ((90 - lat_min) * 4))%Z) by lia.
      rewrite Zle_Qle in Hhi'. rewrite inject_Z_plus in Hhi'.
      change (inject_Z 1) with 1%Q in Hhi'. split; lra.
    + exact Hr0.
    + rewrite <- (int_inject_Z 0). apply int_mono. unfold inject_Z. lra.
  - apply getslice_position in Hv as (k & Hk & Hlo & Hhi); cbn [Py.start Py.stop] in *.
    + apply Glon in Hk. quarters.
      rewrite Zle_Qle in Hlo. assert (Hhi' : (Z.of_nat k + 1 <= Py.int ((lon_max + 180) * 4))%Z) by lia.
      rewrite Zle_Qle in Hhi'. rewrite inject_Z_plus in Hhi'.
      change (inject_Z 1) with 1%Q in Hhi'. split; lra.
    + exact Hc0.
    + rewrite <- (int_inject_Z 0). apply int_mono. unfold inject_Z. lra.
Qed.

(** X9: on the quarter-degree grid, for region arguments that are Python
    [int]s, with the southern edge of the region not beyond the north pole
    and its eastern edge not west of -180, the latitudes a region query
    returns lie in [[lat_min + 1/4, lat_max + 1/4)] and the longitudes in
    [(lon_min - 1/4, lon_max - 1/4]], for the clamped edges [lat_min],
    [lat_max], [lon_min], [lon_max] of [get_mask]: the southern and the
    eastern edge themselves are left out. *)
Theorem getMesh_region_window (self : DataSet) (time_step : Z)
    (lat lon dlat dlon : Z) (latmesh lonmesh : list Q) (fieldmesh : array2) :
  lat_grid (latitude (array self)) → lon_grid (longitude (array self)) →
  (lat - dlat <= 90)%Z → (-180 <= lon + dlon)%Z →
  getMesh self time_step (Some (inject_Z lat)) (Some (inject_Z lon))
    (Some (inject_Z dlat)) (Some (inject_Z dlon)) =
    inr (latmesh, lonmesh, fieldmesh) →
  (∀ v, v ∈ latmesh →
     (Py.max (inject_Z lat - inject_Z dlat) (-90) + (1 # 4) <= v)%Q ∧
     (v < Py.min (inject_Z lat + inject_Z dlat) 90 + (1 # 4))%Q) ∧
  (∀ v, v ∈ lonmesh →
     (Py.max (inject_Z lon - inject_Z dlon) (-180) - (1 # 4) < v)%Q ∧
     (v <= Py.min (inject_Z lon + inject_Z dlon) 180 - (1 # 4))%Q).
Proof.
  intros Glat Glon Hs He H.
  eapply (getMesh_region_window_exact self time_step); [exact Glat | exact Glon | | | exact H].
  - rewrite Zle_Qle in Hs. unfold Z.sub in Hs.
    rewrite inject_Z_plus, inject_Z_opp in Hs. exact Hs.
  - rewrite Zle_Qle in He. rewrite inject_Z_plus in He. exact He.
Qed.

Lemma getMesh_region_window_witness :
  (∀ v, v ∈ [90; 359 # 4; 179 # 2]%Q →
     (Py.max (inject_Z 90 - inject_Z 1) (-90) + (1 # 4) <= v)%Q ∧
     (v < Py.min (inject_Z 90 + inject_Z 1) 90 + (1 # 4))%Q) ∧
  (∀ v, v ∈ [-180; -719 # 4]%Q →
     (Py.max (inject_Z (-180) - inject_Z 1) (-180) - (1 # 4) < v)%Q ∧
     (v <= Py.min (inject_Z (-180) + inject_Z 1) 180 - (1 # 4))%Q).
Proof.
  apply (getMesh_region_window u100 1 90 (-180) 1 1
           [90; 359 # 4; 179 # 2]%Q [-180; -719 # 4]%Q
           (Array2 2 [[7; 8]; [9; 10]; [11; 12]]%Q)).
  - exact grid0_lat_grid.
  - exact grid0_lon_grid.
  - simpl. lia.
  - simpl. lia.
  - vm_compute. reflexivity.
Defined.

(** X10: a region that covers the globe returns the first 720 latitudes
    and the first 1440 longitudes of the arrays, or all of them when there
    are fewer: on a grid of 721 by 1441 points the last row and the last
    column are left out. *)
Theorem getMesh_global_region_lengths (self : DataSet) (time_step : Z)
    (lat lon dlat dlon : Q) (latmesh lonmesh : list Q) (fieldmesh : array2) :
  (lat - dlat <= -90)%Q → (90 <= lat + dlat)%Q →
  (lon - dlon <= -180)%Q → (180 <= lon + dlon)%Q →
  getMesh self time_step (Some lat) (Some lon) (Some dlat) (Some dlon) =
    inr (latmesh, lonmesh, fieldmesh) →
  length latmesh = Nat.min 720 (length (latitude (array self))) ∧
  length lonmesh = Nat.min 1440 (length (longitude (array self))).
Proof.
  intros Hs Hn Hw He H.
  apply getMesh_region_inv in H as (_ & -> & -> & _).
  rewrite (get_mask_global _ _ _ _ Hs Hn Hw He). cbn [fst snd].
  rewrite !getslice_prefix_length by lia. split; reflexivity.
Qed.

Lemma getMesh_global_region_lengths_witness :
  length (latitude grid0) = Nat.min 720 (length (latitude (array u100))) ∧
  length (longitude grid0) = Nat.min 1440 (length (longitude (array u100))).
Proof.
  apply (getMesh_global_region_lengths u100 0 0 0 1000 1000
           (latitude grid0) (longitude grid0) (Array2 2 [[1; 2]; [3; 4]; [5; 6]]%Q)).
  - unfold Qle; simpl; lia.
  - unfold Qle; simpl; lia.
  - unfold Qle; simpl; lia.
  - unfold Qle; simpl; lia.
  - vm_compute. reflexivity.
Defined.

(** X11: [getMesh] returns whenever the time step is from 0 up to the
    declared count, the data variable is in the dataset with at least that
    many layers, and the region is given whole, in Python [int]s, or not
    at all. *)
Theorem getMesh_total (self : DataSet) (time_step : Z)
    (lat lon dlat dlon : option Z) (field : list array2) :
  (0 <= time_step < time_steps self)%Z →
  data_vars (array self) !! data_var self = Some field →
  (time_steps self <= Z.of_nat (length field))%Z →
  supplied (inject_Z <$> lat) (inject_Z <$> lon) (inject_Z <$> dlat) (inject_Z <$> dlon) = 0%nat ∨
  supplied (inject_Z <$> lat) (inject_Z <$> lon) (inject_Z <$> dlat) (inject_Z <$> dlon) = 4%nat →
  ∃ m, getMesh self time_step (inject_Z <$> lat) (inject_Z <$> lon)
         (inject_Z <$> dlat) (inject_Z <$> dlon) = inr m.
Proof.
  intros Ht Hf Hlen Hs.
  destruct (getMesh_cases self time_step (inject_Z <$> lat) (inject_Z <$> lon)
              (inject_Z <$> dlat) (inject_Z <$> dlon))
    as [(? & _) | [(_ & ? & _) | [(_ & _ & Hn & _) | [(_ & _ & (f & Hf' & Hg) & _) |
        (_ & _ & f & l & m & _ & _ & Hm)]]]].
  - lia.
  - lia.
  - congruence.
  - rewrite Hf in Hf'. injection Hf' as <-.
    apply getitem_None in Hg. lia.
  - eauto.
Qed.

Lemma getMesh_total_witness :
  ∃ m, getMesh u100 1 (inject_Z <$> Some 90%Z) (inject_Z <$> Some (-180)%Z)
         (inject_Z <$> Some 1%Z) (inject_Z <$> Some 1%Z) = inr m.
Proof.
  apply (getMesh_total u100 1 (Some 90%Z) (Some (-180)%Z) (Some 1%Z) (Some 1%Z)
           [ Array2 2 [[1; 2]; [3; 4]; [5; 6]]%Q;
             Array2 2 [[7; 8]; [9; 10]; [11; 12]]%Q ]).
  - unfold u100. simpl. lia.
  - vm_compute. reflexivity.
  - unfold u100. simpl. lia.
  - right. reflexivity.
Defined.

(** X13: for a [data_var] that names a data variable and region arguments
    that are Python [int]s or absent, [getMesh] raises [IndexError] exactly
    when the time step is below the declared count, the region is given
    whole or not at all, and the field has no layer at the time step: the
    step is at or past the number of layers, or further below zero than
    that number.  A declared count above the number of layers is not
    caught by the bound check. *)
Theorem getMesh_IndexError_iff (self : DataSet) (time_step : Z)
    (lat lon dlat dlon : option Z) (field : list array2) :
  data_vars (array self) !! data_var self = Some field →
  getMesh self time_step (inject_Z <$> lat) (inject_Z <$> lon)
    (inject_Z <$> dlat) (inject_Z <$> dlon) = inl IndexError ↔
  (time_step < time_steps self)%Z ∧
  (supplied (inject_Z <$> lat) (inject_Z <$> lon) (inject_Z <$> dlat) (inject_Z <$> dlon) = 0%nat ∨
   supplied (inject_Z <$> lat) (inject_Z <$> lon) (inject_Z <$> dlat) (inject_Z <$> dlon) = 4%nat) ∧
  ¬ (- Z.of_nat (length field) <= time_step < Z.of_nat (length field))%Z.
Proof.
  intros Hfield.
  destruct (getMesh_cases self time_step (inject_Z <$> lat) (inject_Z <$> lon)
              (inject_Z <$> dlat) (inject_Z <$> dlon))
    as [(? & ->) | [(? & ? & ->) | [(? & ? & Hn & ->) | [(? & ? & (f & Hf & Hg) & ->) |
        (? & ? & f & l & m & Hf & Hl & ->)]]]].
  - split; [discriminate | lia].
  - split; [discriminate | lia].
  - congruence.
  - rewrite Hfield in Hf. injection Hf as <-.
    split; [| reflexivity]. intros _. repeat (split; [done |]).
    now apply getitem_None.
  - rewrite Hfield in Hf. injection Hf as <-.
    split; [discriminate |]. intros (_ & _ & Hout).
    apply getitem_None in Hout. congruence.
Qed.

Lemma getMesh_IndexError_iff_witness :
  getMesh u100 (-3) (inject_Z <$> None) (inject_Z <$> None)
    (inject_Z <$> None) (inject_Z <$> None) = inl IndexError ↔
  (-3 < time_steps u100)%Z ∧
  (supplied (inject_Z <$> None) (inject_Z <$> None) (inject_Z <$> None) (inject_Z <$> None) = 0%nat ∨
   supplied (inject_Z <$> None) (inject_Z <$> None) (inject_Z <$> None) (inject_Z <$> None) = 4%nat) ∧
  ¬ (- Z.of_nat (length [ Array2 2 [[1; 2]; [3; 4]; [5; 6]]%Q;
                          Array2 2 [[7; 8]; [9; 10]; [11; 12]]%Q ]) <= -3 <
       Z.of_nat (length [ Array2 2 [[1; 2]; [3; 4]; [5; 6]]%Q;
                          Array2 2 [[7; 8]; [9; 10]; [11; 12]]%Q ]))%Z.
Proof.
  apply (getMesh_IndexError_iff u100 (-3) None None None None).
  vm_compute. reflexivity.
Defined.

(** X15: a negative time step passes the bound check of a dataset whose
    declared count is not negative, and counts from the end of the field:
    step [-1] is the last layer. *)
Theorem getMesh_negative_step (self : DataSet) (time_step : Z) (field : list array2) :
  (0 <= time_steps self)%Z →
  data_vars (array self) !! data_var self = Some field →
  (- Z.of_nat (length field) <= time_step < 0)%Z →
  ∃ layer,
    field !! Z.to_nat (Z.of_nat (length field) + time_step) = Some layer ∧
    getMesh self time_step None None None None =
      inr (latitude (array self), longitude (array self), layer).
Proof.
  intros HN Hf Ht.
  destruct (lookup_lt_is_Some_2 field (Z.to_nat (Z.of_nat (length field) + time_step)))
    as [layer Hl]; [lia |].
  exists layer. split; [exact Hl |].
  apply getMesh_whole_inv. split; [lia |]. repeat (split; [done |]).
  exists field. split; [exact Hf |]. now rewrite getitem_negative.
Qed.

Lemma getMesh_negative_step_witness :
  ∃ layer,
    [ Array2 2 [[1; 2]; [3; 4]; [5; 6]]%Q;
      Array2 2 [[7; 8]; [9; 10]; [11; 12]]%Q ] !! Z.to_nat (Z.of_nat 2 + -1) = Some layer ∧
    getMesh u100 (-1) None None None None =
      inr (latitude (array u100), longitude (array u100), layer).
Proof.
  apply (getMesh_negative_step u100 (-1)
           [ Array2 2 [[1; 2]; [3; 4]; [5; 6]]%Q;
             Array2 2 [[7; 8]; [9; 10]; [11; 12]]%Q ]).
  - unfold u100. simpl. lia.
  - vm_compute. reflexivity.
  - simpl. lia.
Defined.

(** ** Visualize, continued *)

Section Directories.



(** X17: [create_dir] is idempotent: after a call that returned, a second
    call for the same directory returns too, makes no directory, leaves the
    set of directories as it is and only logs that the directory already
    exists. *)
Theorem create_dir_idempotent (dir : string) (w w1 : world) :
  Visualize.create_dir dir w = (inr tt, w1) →
  ∃ w2,
    Visualize.create_dir dir w1 = (inr tt, w2) ∧
    dirs w2 = dirs w1 ∧ files w2 = files w1 ∧
    log w2 = log w1 ++
      [Print ("[Visualize-LOG] Directory '" +:+ dir +:+ "' already exists")].
Proof.
  intros E1. pose proof (create_dir_cases dir w) as Hc.
  destruct (mkdir_error w dir) as [e |] eqn:He; [congruence |].
  destruct Hc as (w1' & E1' & Hd1 & Hm1 & Hf1 & _).
  rewrite E1 in E1'. injection E1' as <-.
  pose proof (create_dir_cases dir w1) as Hc. rewrite Hm1, He in Hc.
  destruct Hc as (w2 & E2 & Hd2 & _ & Hf2 & Hl2).
  exists w2. split; [exact E2 |].
  split; [rewrite Hd2, Hd1; set_solver |]. split; [exact Hf2 |].
  rewrite Hl2. unfold create_dir_log.
  destruct (decide (dir ∈ dirs w1)) as [_ | Hout]; [done |].
  exfalso. apply Hout. rewrite Hd1. set_solver.
Qed.

Lemma create_dir_idempotent_witness :
  ∃ w1 w2,
    Visualize.create_dir "/out/test" world0 = (inr tt, w1) ∧
    Visualize.create_dir "/out/test" w1 = (inr tt, w2) ∧
    dirs w2 = dirs w1 ∧ files w2 = files w1 ∧
    log w2 = log w1 ++
      [Print ("[Visualize-LOG] Directory '" +:+ "/out/test" +:+ "' already exists")].
Proof.
  destruct (create_dir_cases "/out/test" world0) as (w1 & E & _).
  destruct (create_dir_idempotent "/out/test" world0 w1 E) as (w2 & H).
  exists w1, w2. split; [exact E | exact H].
Defined.

End Directories.

Lemma prepare_missing_file (time_steps_arg : option (gmap string Z))
    (item : string * string) (self : object) (w : world) :
  files w !! item.2 = None →
  ∃ w', Visualize.prepare time_steps_arg item self w =
          (inl (FileNotFoundError item.2), w').
Proof.
  destruct item as [data_name data_path]. cbn [snd]. intros Hf.
  unfold Visualize.prepare. step. rewrite Hf. eauto.
Qed.

Lemma prepare_missing_count (steps : gmap string Z) (data_name data_path : string)
    (self : object) (w : world) (grid : Dataset) :
  files w !! data_path = Some grid → steps !! data_name = None →
  ∃ w', Visualize.prepare (Some steps) (data_name, data_path) self w =
          (inl (KeyError data_name), w') ∧
        last (log w') = Some (OpenDataset data_path).
Proof.
  intros Hf Hn. unfold Visualize.prepare. step. rewrite Hf, Hn. cbn.
  eexists. split; [reflexivity |]. cbn [log]. apply last_snoc.
Qed.

Lemma init_world0_returns :
  ∃ self w',
    Visualize.__init__ "test" [("u100", "/data/u.grib"); ("v100", "/data/v.grib")]
      "/out" (VStr "vector") (VOpaque "PlateCarree")
      (Some {[ "u100" := 24%Z; "v100" := 12%Z ]}) world0 = (inr self, w').
Proof.
  assert (Hr : match (Visualize.__init__ "test"
                [("u100", "/data/u.grib"); ("v100", "/data/v.grib")]
                "/out" (VStr "vector") (VOpaque "PlateCarree")
                (Some {[ "u100" := 24%Z; "v100" := 12%Z ]}) world0).1 with
               | inr _ => True
               | inl _ => False
               end) by (vm_compute; exact I).
  destruct (Visualize.__init__ _ _ _ _ _ _ _) as [[e | self] w'].
  - destruct Hr.
  - eauto.
Defined.

Section InitProperties.

Variables task_name outputs_dir : string.
Variable data_paths : list (string * string).
Variables mode projection : value.
Variable time_steps_arg : option (gmap string Z).
Variable w : world.

(** What a returned instance is. *)
Lemma init_returned (self : object) (w' : world) :
  Visualize.__init__ task_name data_paths outputs_dir mode projection time_steps_arg w =
    (inr self, w') →
  ∃ w0, files w0 = files w ∧
    for_each data_paths (Visualize.prepare time_steps_arg)
      (attrs_before_loop task_name data_paths outputs_dir projection time_steps_arg) w0 =
      (inr self, w').
Proof.
  pose proof (init_unfold task_name outputs_dir data_paths mode projection
                time_steps_arg w) as Hi.
  destruct (mkdir_error w _) as [e |].
  - destruct Hi as (w1 & _ & _ & ->). discriminate.
  - destruct Hi as (w0 & _ & Hf & _ & ->).
    destruct (ne_str mode "scalar" && ne_str mode "vector"); [discriminate |].
    intros H. exists w0. done.
Qed.

(** X18: the instance [__init__] returns has the eight attributes
    [datasets], [size], [task_name], [time_steps], [projection],
    [out_dir], [frame_dir] and [anim_dir] and no other; [size] is the
    number of paths, [out_dir] is the task name joined to the outputs
    directory, and [frame_dir] and [anim_dir] are ["frame"] and
    ["animation"] joined to [out_dir]. *)
Theorem init_attributes (self : object) (w' : world) :
  Visualize.__init__ task_name data_paths outputs_dir mode projection time_steps_arg w =
    (inr self, w') →
  dom self = {[ "datasets"; "size"; "task_name"; "time_steps"; "projection";
                "out_dir"; "frame_dir"; "anim_dir" ]} ∧
  self !! "size" = Some (VInt (Z.of_nat (length data_paths))) ∧
  self !! "task_name" = Some (VStr task_name) ∧
  self !! "time_steps" = Some (from_option VSteps VNone time_steps_arg) ∧
  self !! "projection" = Some projection ∧
  self !! "out_dir" = Some (VStr (os.path_join outputs_dir task_name)) ∧
  self !! "frame_dir" =
    Some (VStr (os.path_join (os.path_join outputs_dir task_name) "frame")) ∧
  self !! "anim_dir" =
    Some (VStr (os.path_join (os.path_join outputs_dir task_name) "animation")).
Proof.
  intros H. apply init_returned in H as (w0 & _ & H).
  eapply for_each_prepare_catalog in H as (d & -> & _);
    [| apply attrs_before_loop_datasets].
  split.
  - unfold attrs_before_loop. rewrite !dom_insert_L, dom_empty_L. set_solver.
  - rewrite !lookup_insert_ne by done. repeat split.
Qed.

(** X19: in the instance [__init__] returns, the names of [datasets] are
    the names of [data_paths]; the dataset under a name carries that name
    as its [data_var], the grid decoded from a path given for the name,
    and as its step count 1 when no counts were passed and the count
    passed for the name otherwise. *)
Theorem init_catalog (self : object) (w' : world) :
  Visualize.__init__ task_name data_paths outputs_dir mode projection time_steps_arg w =
    (inr self, w') →
  ∃ d, self !! "datasets" = Some (VDatasets d) ∧
    dom d = list_to_set data_paths.*1 ∧
    ∀ name ds, d !! name = Some ds →
      data_var ds = name ∧
      (∃ path, (name, path) ∈ data_paths ∧ files w !! path = Some (array ds)) ∧
      match time_steps_arg with
      | None => time_steps ds = 1%Z
      | Some steps => steps !! name = Some (time_steps ds)
      end.
Proof.
  intros H. apply init_returned in H as (w0 & Hfiles & H).
  eapply for_each_prepare_catalog in H as (d & -> & Hdom & Hent);
    [| apply attrs_before_loop_datasets].
  exists d. split; [apply lookup_insert_eq |]. split.
  - rewrite Hdom, dom_empty_L. set_solver.
  - intros name ds Hds. apply Hent in Hds as [Hds | (Hv & (path & Hin & Hp) & Hc)].
    + rewrite lookup_empty in Hds. discriminate.
    + split; [exact Hv |]. split; [| exact Hc].
      exists path. split; [exact Hin | congruence].
Qed.

(** X20: [__init__] returns an instance exactly when [os.mkdir] is not
    refused the output directory, the mode is ["scalar"] or ["vector"],
    every path decodes and, when step counts are passed, every name has
    one. *)
Theorem init_returns_iff :
  (∃ self w',
     Visualize.__init__ task_name data_paths outputs_dir mode projection
       time_steps_arg w = (inr self, w')) ↔
  mkdir_error w (os.path_join outputs_dir task_name) = None ∧
  (mode = VStr "scalar" ∨ mode = VStr "vector") ∧
  Forall (loadable w time_steps_arg) data_paths.
Proof.
  pose proof (init_unfold task_name outputs_dir data_paths mode projection
                time_steps_arg w) as Hi.
  destruct (mkdir_error w _) as [e |].
  { destruct Hi as (w1 & _ & _ & ->). split.
    - intros (self & w' & H). discriminate.
    - intros (? & _). discriminate. }
  destruct Hi as (w0 & _ & Hfiles & _ & ->).
  assert (Hload : Forall (loadable w0 time_steps_arg) data_paths ↔
                  Forall (loadable w time_steps_arg) data_paths).
  { unfold loadable. now rewrite Hfiles. }
  assert (Hmode : ne_str mode "scalar" && ne_str mode "vector" = false ↔
                  mode = VStr "scalar" ∨ mode = VStr "vector").
  { rewrite andb_false_iff. unfold ne_str. rewrite !negb_false_iff.
    unfold eq_str. destruct mode; try (split; [intros [|]; discriminate | intros [|]; discriminate]).
    rewrite !String.eqb_eq. split; (intros [H | H]; [left | right]; congruence). }
  destruct (ne_str mode "scalar" && ne_str mode "vector").
  - split.
    + intros (self & w' & H). discriminate.
    + intros (_ & Hm & _). apply Hmode in Hm. discriminate.
  - rewrite (for_each_prepare_returns_iff time_steps_arg data_paths _ w0 ∅
               (attrs_before_loop_datasets _ _ _ _ _)).
    rewrite Hload. split.
    + intros H. split; [reflexivity |]. split; [now apply Hmode | exact H].
    + now intros (_ & _ & H).
Qed.



End InitProperties.

Section InitFailures.

Variables task_name outputs_dir : string.
Variables pre post : list (string * string).
Variables data_name data_path : string.
Variables mode projection : value.
Variable w : world.

Lemma init_reaches_item (time_steps_arg : option (gmap string Z)) :
  mkdir_error w (os.path_join outputs_dir task_name) = None →
  mode = VStr "scalar" ∨ mode = VStr "vector" →
  Forall (loadable w time_steps_arg) pre →
  ∃ self1 w1,
    files w1 = files w ∧
    Visualize.__init__ task_name (pre ++ (data_name, data_path) :: post) outputs_dir
      mode projection time_steps_arg w =
    match Visualize.prepare time_steps_arg (data_name, data_path) self1 w1 with
    | (inl e, w') => (inl e, w')
    | (inr self2, w') => for_each post (Visualize.prepare time_steps_arg) self2 w'
    end.
Proof.
  intros Hm Hmode Hpre.
  pose proof (init_unfold task_name outputs_dir (pre ++ (data_name, data_path) :: post)
                mode projection time_steps_arg w) as Hi.
  rewrite Hm in Hi. destruct Hi as (w0 & _ & Hfiles & _ & ->).
  replace (ne_str mode "scalar" && ne_str mode "vector") with false
    by (destruct Hmode as [-> | ->]; reflexivity).
  rewrite for_each_app.
  assert (Hpre0 : Forall (loadable w0 time_steps_arg) pre).
  { eapply Forall_impl; [exact Hpre |]. intros x [Hx1 Hx2].
    split; [now rewrite Hfiles | exact Hx2]. }
  eapply for_each_prepare_returns_iff in Hpre0 as (self1 & w1 & E);
    [| apply attrs_before_loop_datasets].
  rewrite E. apply for_each_prepare_world in E as [_ Hf1].
  exists self1, w1. split; [congruence | reflexivity].
Qed.

(** X23: construction fails fast on a file that does not decode: when
    [os.mkdir] is not refused the output directory, the mode is supported
    and the items before it are loadable, [__init__] raises
    [FileNotFoundError] for the first such path and returns no
    instance. *)
Theorem init_missing_file (time_steps_arg : option (gmap string Z)) :
  mkdir_error w (os.path_join outputs_dir task_name) = None →
  mode = VStr "scalar" ∨ mode = VStr "vector" →
  Forall (loadable w time_steps_arg) pre →
  files w !! data_path = None →
  (Visualize.__init__ task_name (pre ++ (data_name, data_path) :: post) outputs_dir
     mode projection time_steps_arg w).1 = inl (FileNotFoundError data_path).
Proof.
  intros Hm Hmode Hpre Hfile.
  destruct (init_reaches_item time_steps_arg Hm Hmode Hpre) as (self1 & w1 & Hf1 & ->).
  destruct (prepare_missing_file time_steps_arg (data_name, data_path) self1 w1)
    as (w' & ->); [cbn; congruence |]. reflexivity.
Qed.

(** X24: when step counts are passed and a name has none, [__init__]
    raises [KeyError] for that name, after it has opened the dataset of
    the name: opening it is the last thing in the log.  This is where
    [os.mkdir] is not refused the output directory, the mode is supported
    and the items before are loadable. *)
Theorem init_missing_count (steps : gmap string Z) (grid : Dataset) :
  mkdir_error w (os.path_join outputs_dir task_name) = None →
  mode = VStr "scalar" ∨ mode = VStr "vector" →
  Forall (loadable w (Some steps)) pre →
  files w !! data_path = Some grid → steps !! data_name = None →
  ∃ w',
    Visualize.__init__ task_name (pre ++ (data_name, data_path) :: post) outputs_dir
      mode projection (Some steps) w = (inl (KeyError data_name), w') ∧
    last (log w') = Some (OpenDataset data_path).
Proof.
  intros Hm Hmode Hpre Hfile Hcount.
  destruct (init_reaches_item (Some steps) Hm Hmode Hpre) as (self1 & w1 & Hf1 & ->).
  destruct (prepare_missing_count steps data_name data_path self1 w1 grid)
    as (w' & -> & Hlast); [congruence | exact Hcount |].
  exists w'. done.
Qed.

End InitFailures.

(** X26: on an instance that carries a [mode] and the number of datasets
    the mode asks for, both entry points raise [TypeError] at
    [self.datasets.keys()[0]], a view without subscript, and leave the
    world as it was: no frame is plotted or read. *)
Theorem entry_points_stop_at_keys (self : object) (mode : value)
    (d : gmap string DataSet) (lat lon dlat dlon : option Q) (title : value)
    (w : world) :
  self !! "mode" = Some mode →
  self !! "datasets" = Some (VDatasets d) →
  size d = (if eq_str mode "scalar" then 1 else 3)%nat →
  Visualize.populate_frame self lat lon dlat dlon title w =
    (inl (TypeError "'dict_keys' object is not subscriptable"), w) ∧
  Visualize.animate_from_frames self w =
    (inl (TypeError "'dict_keys' object is not subscriptable"), w).
Proof.
  intros Hm Hd Hsize.
  unfold Visualize.populate_frame, Visualize.animate_from_frames. step.
  rewrite Hm, Hd. unfold len_keys, keys_getitem. step.
  destruct (eq_str mode "scalar"); rewrite Hsize; split; reflexivity.
Qed.

Lemma entry_points_stop_at_keys_witness :
  Visualize.populate_frame
    {[ "mode" := VStr "scalar"; "datasets" := VDatasets {[ "u100" := u100 ]} ]}
    None None None None VNone world0 =
    (inl (TypeError "'dict_keys' object is not subscriptable"), world0) ∧
  Visualize.animate_from_frames
    {[ "mode" := VStr "scalar"; "datasets" := VDatasets {[ "u100" := u100 ]} ]}
    world0 =
    (inl (TypeError "'dict_keys' object is not subscriptable"), world0).
Proof.
  apply (entry_points_stop_at_keys _ (VStr "scalar") {[ "u100" := u100 ]}).
  - vm_compute. reflexivity.
  - vm_compute. reflexivity.
  - vm_compute. reflexivity.
Defined.

Lemma count_check_with_mode_witness :
  Visualize.populate_frame
    {[ "mode" := VStr "vector"; "datasets" := VDatasets {[ "u100" := u100 ]} ]}
    None None None None VNone world0 =
    (inl (DatasetCountMismatchError "vector"), world0) ∧
  Visualize.animate_from_frames
    {[ "mode" := VStr "vector"; "datasets" := VDatasets {[ "u100" := u100 ]} ]}
    world0 =
    (inl (DatasetCountMismatchError "vector"), world0).
Proof.
  apply (count_check_with_mode _ (VStr "vector") {[ "u100" := u100 ]}).
  - vm_compute. reflexivity.
  - vm_compute. reflexivity.
  - vm_compute. lia.
Defined.

Lemma init_attributes_witness :
  ∃ self w',
    Visualize.__init__ "test" [("u100", "/data/u.grib"); ("v100", "/data/v.grib")]
      "/out" (VStr "vector") (VOpaque "PlateCarree")
      (Some {[ "u100" := 24%Z; "v100" := 12%Z ]}) world0 = (inr self, w') ∧
    dom self = {[ "datasets"; "size"; "task_name"; "time_steps"; "projection";
                  "out_dir"; "frame_dir"; "anim_dir" ]} ∧
    self !! "size" = Some (VInt 2) ∧
    self !! "task_name" = Some (VStr "test") ∧
    self !! "time_steps" = Some (VSteps {[ "u100" := 24%Z; "v100" := 12%Z ]}) ∧
    self !! "projection" = Some (VOpaque "PlateCarree") ∧
    self !! "out_dir" = Some (VStr "/out/test") ∧
    self !! "frame_dir" = Some (VStr "/out/test/frame") ∧
    self !! "anim_dir" = Some (VStr "/out/test/animation").
Proof.
  destruct init_world0_returns as (self & w' & E).
  exists self, w'. split; [exact E |].
  apply (init_attributes _ _ _ _ _ _ _ _ _ E).
Defined.

Lemma init_catalog_witness :
  ∃ self w' d,
    Visualize.__init__ "test" [("u100", "/data/u.grib"); ("v100", "/data/v.grib")]
      "/out" (VStr "vector") (VOpaque "PlateCarree")
      (Some {[ "u100" := 24%Z; "v100" := 12%Z ]}) world0 = (inr self, w') ∧
    self !! "datasets" = Some (VDatasets d) ∧
    dom d = list_to_set [("u100", "/data/u.grib"); ("v100", "/data/v.grib")].*1 ∧
    ∀ name ds, d !! name = Some ds →
      data_var ds = name ∧
      (∃ path, (name, path) ∈ [("u100", "/data/u.grib"); ("v100", "/data/v.grib")] ∧
               files world0 !! path = Some (array ds)) ∧
      ({[ "u100" := 24%Z; "v100" := 12%Z ]} : gmap string Z) !! name = Some (time_steps ds).
Proof.
  destruct init_world0_returns as (self & w' & E).
  destruct (init_catalog _ _ _ _ _ _ _ _ _ E) as (d & H).
  exists self, w', d. split; [exact E | exact H].
Defined.



Lemma world0_loadable_u100 (time_steps_arg : option (gmap string Z)) :
  (match time_steps_arg with
   | None => True
   | Some steps => is_Some (steps !! "u100")
   end) →
  Forall (loadable world0 time_steps_arg) [("u100", "/data/u.grib")].
Proof.
  intros H. constructor; [| constructor]. split; [| exact H].
  exists grid0. vm_compute. reflexivity.
Defined.

Lemma init_missing_file_witness :
  (Visualize.__init__ "test"
     ([("u100", "/data/u.grib")] ++ ("w100", "/data/none.grib") :: [("v100", "/data/v.grib")])
     "/out" (VStr "vector") (VOpaque "PlateCarree") None world0).1 =
    inl (FileNotFoundError "/data/none.grib").
Proof.
  apply (init_missing_file "test" "/out" [("u100", "/data/u.grib")]
           [("v100", "/data/v.grib")] "w100" "/data/none.grib"
           (VStr "vector") (VOpaque "PlateCarree") world0 None).
  - reflexivity.
  - right. reflexivity.
  - apply world0_loadable_u100. exact I.
  - vm_compute. reflexivity.
Defined.

Lemma init_missing_count_witness :
  ∃ w',
    Visualize.__init__ "test"
      ([("u100", "/data/u.grib")] ++ ("v100", "/data/v.grib") :: [])
      "/out" (VStr "vector") (VOpaque "PlateCarree")
      (Some {[ "u100" := 24%Z ]}) world0 = (inl (KeyError "v100"), w') ∧
    last (log w') = Some (OpenDataset "/data/v.grib").
Proof.
  apply (init_missing_count "test" "/out" [("u100", "/data/u.grib")] []
           "v100" "/data/v.grib" (VStr "vector") (VOpaque "PlateCarree") world0
           {[ "u100" := 24%Z ]} grid0).
  - reflexivity.
  - right. reflexivity.
  - apply world0_loadable_u100. exists 24%Z. vm_compute. reflexivity.
  - vm_compute. reflexivity.
  - vm_compute. reflexivity.
Defined.

Lemma rounded_index_bounds_witness :
  (0 <= to_lat_index_rnd (fun q => q) (-90) <= 180 * resolution_factor)%Z ∧
  (0 <= to_lon_index_rnd (fun q => q) 180 <= 360 * resolution_factor)%Z.
Proof.
  apply (rounded_index_bounds (fun q => q)).
  - intros p q H. exact H.
  - intros z _. reflexivity.
  - unfold Qle; simpl; lia.
  - unfold Qle; simpl; lia.
  - unfold Qle; simpl; lia.
  - unfold Qle; simpl; lia.
Defined.

Lemma rounded_to_lat_index_antitone_witness :
  (to_lat_index_rnd (fun q => q) 50 <= to_lat_index_rnd (fun q => q) 30)%Z.
Proof.
  apply (rounded_to_lat_index_antitone (fun q => q)).
  - intros p q H. exact H.
  - unfold Qle; simpl; lia.
Defined.

Lemma rounded_get_mask_saturates_witness :
  get_mask_rnd (fun q => q) 40 (-90) 1000 1000 = (Py.Slice 0 720, Py.Slice 0 1440).
Proof.
  apply (rounded_get_mask_saturates (fun q => q)).
  - intros p q H. exact H.
  - intros z _. reflexivity.
  - unfold Qle; simpl; lia.
  - unfold Qle; simpl; lia.
  - unfold Qle; simpl; lia.
  - unfold Qle; simpl; lia.
Defined.
